(** * Financial research portal: extraction and rendering

    A shallow embedding of [src/app.py] (heuristic extractor, renderer,
    upload endpoint) and [src/api/extract.py] (model-assisted extractor and
    its copy of the renderer).

    Conventions of the embedding.
    - A Python [str] is a [string]; a character is a code point in 0..255
      and the classes [\d], [\s], [\w], [str.lower] and [str.strip] are
      Python's Unicode ones restricted to that range.
    - A [dict] is a [gmap]; [d[k] = v] is [<[k:=v]> d], [k in d] is
      [is_Some (d !! k)], [d.get(k, x)] is [default x (d !! k)].
    - A Python float read from a decimal token is kept as the exact
      rational the token denotes ([Q], in lowest terms); Python stores the
      nearest binary64 value.
    - Code that can raise lives in the error monad [exn]; [try]/[except]
      is [try_except]. *)

From Stdlib Require Import Ascii QArith.
From stdpp Require Import base option list strings pretty gmap sorting.

Local Open Scope nat_scope.

(** ** Exceptions *)

Inductive exc_class :=
  | ValueError | IndexError | AttributeError | JSONDecodeError | APIError.

Record exception := Exc { exc_cls : exc_class; exc_msg : string }.

Inductive exn (A : Type) :=
  | Ok (a : A)
  | Raise (e : exception).
Arguments Ok {A} a.
Arguments Raise {A} e.

#[global] Instance exn_ret : MRet exn := λ A a, Ok a.

#[global] Instance exn_bind : MBind exn := λ A B f m,
  match m with
  | Ok a => f a
  | Raise e => Raise e
  end.

(** [try: body  except: handler] *)
Definition try_except {A} (body : exn A) (handler : exception → exn A) : exn A :=
  match body with
  | Ok a => Ok a
  | Raise e => handler e
  end.

Definition succeeds {A} (m : exn A) : Prop := ∃ a, m = Ok a.

(** ** Characters and strings *)

Definition code (c : ascii) : nat := nat_of_ascii c.

Definition between (lo hi : nat) (c : ascii) : bool :=
  (lo <=? code c) && (code c <=? hi).

(** [\d]: the decimal digits (category Nd). *)
Definition is_digit (c : ascii) : bool := between 48 57 c.

Definition is_upper_az (c : ascii) : bool := between 65 90 c.
Definition is_lower_az (c : ascii) : bool := between 97 122 c.

(** [\s] and [str.isspace]. *)
Definition is_space (c : ascii) : bool :=
  between 9 13 c || between 28 32 c || (code c =? 133) || (code c =? 160).

(** [\w]: alphanumeric (letters, digits, numeric signs) or underscore. *)
Definition is_word (c : ascii) : bool :=
  is_digit c || is_upper_az c || is_lower_az c || (code c =? 95)
  || (code c =? 170) || (code c =? 178) || (code c =? 179) || (code c =? 181)
  || between 185 186 c || between 188 190 c
  || between 192 214 c || between 216 246 c || between 248 255 c.

Definition is_upper (c : ascii) : bool :=
  is_upper_az c || between 192 214 c || between 216 222 c.

Definition lower_char (c : ascii) : ascii :=
  if is_upper c then ascii_of_nat (code c + 32) else c.

Definition upper_char (c : ascii) : ascii :=
  if is_lower_az c || between 224 246 c || between 248 254 c
  then ascii_of_nat (code c - 32) else c.

Definition ascii_eqb (a b : ascii) : bool := bool_decide (a = b).

Fixpoint lower (s : string) : string :=
  match s with
  | EmptyString => EmptyString
  | String c s' => String (lower_char c) (lower s')
  end.

Fixpoint str_take (n : nat) (s : string) : string :=
  match n, s with
  | S n', String c s' => String c (str_take n' s')
  | _, _ => EmptyString
  end.

Fixpoint lstrip (s : string) : string :=
  match s with
  | String c s' => if is_space c then lstrip s' else s
  | EmptyString => EmptyString
  end.

Fixpoint rstrip (s : string) : string :=
  match s with
  | String c s' =>
      match rstrip s' with
      | EmptyString => if is_space c then EmptyString else String c EmptyString
      | r => String c r
      end
  | EmptyString => EmptyString
  end.

(** [s.strip()] *)
Definition strip (s : string) : string := rstrip (lstrip s).

Fixpoint is_prefix (p s : string) : bool :=
  match p, s with
  | EmptyString, _ => true
  | String a p', String b s' => ascii_eqb a b && is_prefix p' s'
  | _, _ => false
  end.

(** [p in s] *)
Fixpoint contains (p s : string) : bool :=
  is_prefix p s ||
  match s with
  | String _ s' => contains p s'
  | EmptyString => false
  end.

(** [s.replace(old, new)] for a one-character [old]. *)
Fixpoint replace_char (old : ascii) (new : string) (s : string) : string :=
  match s with
  | EmptyString => EmptyString
  | String c s' =>
      if ascii_eqb c old then new +:+ replace_char old new s'
      else String c (replace_char old new s')
  end.

(** [s.split(sep)] for a one-character separator; never the empty list. *)
Fixpoint split_on (sep : ascii) (s : string) : list string :=
  match s with
  | EmptyString => [EmptyString]
  | String c s' =>
      if ascii_eqb c sep then EmptyString :: split_on sep s'
      else match split_on sep s' with
           | l :: ls => String c l :: ls
           | [] => [String c EmptyString]
           end
  end.

(** [s.rsplit('.', 1)[1]]: what follows the last dot, when there is one. *)
Fixpoint after_last_dot (s : string) : option string :=
  match s with
  | EmptyString => None
  | String c s' =>
      match after_last_dot s' with
      | Some e => Some e
      | None => if ascii_eqb c "." then Some s' else None
      end
  end.

(** ** Regular expressions

    The fragment of [re] that the patterns of the program use, matched by
    backtracking with Python's priorities: alternatives left to right,
    repetitions greedy. *)

Inductive regex :=
  | Eps                        (* the empty pattern *)
  | Chr (c : ascii)            (* a literal character *)
  | Cls (f : ascii → bool)     (* a class, an escape such as \d, or . *)
  | Seq (r1 r2 : regex)
  | Alt (r1 r2 : regex)        (* r1|r2 *)
  | Opt (r : regex)            (* r? *)
  | Many (f : ascii → bool)    (* [..]*, \d*, .* *)
  | Bound.                     (* \b *)

Definition Many1 (f : ascii → bool) : regex := Seq (Cls f) (Many f).

(** Concatenation and alternation of several patterns. *)
Fixpoint cat (rs : list regex) : regex :=
  match rs with
  | [] => Eps
  | [r] => r
  | r :: rs' => Seq r (cat rs')
  end.

Fixpoint alt (rs : list regex) : regex :=
  match rs with
  | [] => Cls (λ _, false)
  | [r] => r
  | r :: rs' => Alt r (alt rs')
  end.

Fixpoint Lit (s : string) : regex :=
  match s with
  | EmptyString => Eps
  | String c EmptyString => Chr c
  | String c s' => Seq (Chr c) (Lit s')
  end.

Definition dot (c : ascii) : bool := negb (ascii_eqb c "010").

Definition chr_match (ic : bool) (p c : ascii) : bool :=
  if ic then ascii_eqb (lower_char p) (lower_char c) else ascii_eqb p c.

Definition cls_match (ic : bool) (f : ascii → bool) (c : ascii) : bool :=
  f c || (ic && (f (lower_char c) || f (upper_char c))).

Definition word_at (o : option ascii) : bool :=
  match o with
  | Some c => is_word c
  | None => false
  end.

Definition str_head (s : string) : option ascii :=
  match s with
  | String c _ => Some c
  | EmptyString => None
  end.

Section Matcher.
Context {A : Type}.
(** [ic] is the IGNORECASE flag. *)
Variable ic : bool.

Fixpoint many (f : ascii → bool) (prev : option ascii) (s : string)
    (k : option ascii → string → option A) : option A :=
  match s with
  | String c s' =>
      if cls_match ic f c then
        match many f (Some c) s' k with
        | Some a => Some a
        | None => k prev s
        end
      else k prev s
  | EmptyString => k prev s
  end.

(** [rmatch r prev s k]: match [r] at the head of [s], where [prev] is the
    character before it, then continue with [k]. *)
Fixpoint rmatch (r : regex) (prev : option ascii) (s : string)
    (k : option ascii → string → option A) : option A :=
  match r with
  | Eps => k prev s
  | Chr p =>
      match s with
      | String c s' => if chr_match ic p c then k (Some c) s' else None
      | EmptyString => None
      end
  | Cls f =>
      match s with
      | String c s' => if cls_match ic f c then k (Some c) s' else None
      | EmptyString => None
      end
  | Seq r1 r2 => rmatch r1 prev s (λ prev' s', rmatch r2 prev' s' k)
  | Alt r1 r2 =>
      match rmatch r1 prev s k with
      | Some a => Some a
      | None => rmatch r2 prev s k
      end
  | Opt r1 =>
      match rmatch r1 prev s k with
      | Some a => Some a
      | None => k prev s
      end
  | Many f => many f prev s k
  | Bound => if xorb (word_at prev) (word_at (str_head s)) then k prev s else None
  end.
End Matcher.

(** The text matched at the head of [s], if any. *)
Definition match_here (ic : bool) (r : regex) (prev : option ascii) (s : string)
    : option string :=
  match rmatch ic r prev s (λ _ rest, Some rest) with
  | Some rest => Some (str_take (String.length s - String.length rest) s)
  | None => None
  end.

(** [re.search(r, s)]: the leftmost match. *)
Fixpoint search_from (ic : bool) (r : regex) (prev : option ascii) (s : string)
    : option string :=
  match match_here ic r prev s with
  | Some m => Some m
  | None =>
      match s with
      | String c s' => search_from ic r (Some c) s'
      | EmptyString => None
      end
  end.

Definition re_search (ic : bool) (r : regex) (s : string) : option string :=
  search_from ic r None s.

(** [re.findall(r, s)]: the non-overlapping matches, left to right.  [skip]
    counts the characters of the last match still to be passed over. *)
Fixpoint findall_from (r : regex) (prev : option ascii) (s : string) (skip : nat)
    : list string :=
  match skip, s with
  | S n, String c s' => findall_from r (Some c) s' n
  | S _, EmptyString => []
  | 0, String c s' =>
      match match_here false r prev s with
      | Some m => m :: findall_from r (Some c) s' (String.length m - 1)
      | None => findall_from r (Some c) s' 0
      end
  | 0, EmptyString =>
      match match_here false r prev s with
      | Some m => [m]
      | None => []
      end
  end.

Definition re_findall (r : regex) (s : string) : list string :=
  findall_from r None s 0.

(** ** Numbers *)

#[global] Instance Q_eq_dec : EqDecision Q.
Proof. solve_decision. Defined.

(** The longest prefix of digits, and what follows it. *)
Fixpoint take_digits (s : string) : string * string :=
  match s with
  | String c s' =>
      if is_digit c then
        let '(ds, rest) := take_digits s' in (String c ds, rest)
      else (EmptyString, s)
  | EmptyString => (EmptyString, EmptyString)
  end.

Fixpoint digits_value (acc : N) (s : string) : N :=
  match s with
  | String c s' => digits_value (acc * 10 + N.of_nat (code c - 48)) s'
  | EmptyString => acc
  end.

Definition pow10 (n : nat) : positive := Nat.iter n (Pos.mul 10) 1%positive.

(** The number written [ip.fp] in decimal. *)
Definition decimal (ip fp : string) : Q :=
  Qred (Z.of_N (digits_value 0 (ip +:+ fp)) # pow10 (String.length fp)).

Definition float_error (s : string) : exception :=
  Exc ValueError ("could not convert string to float: '" +:+ s +:+ "'").

(** [float(s)] on strings made of digits and dots, the only ones the
    extractor passes to it: digits with at most one dot and at least one
    digit convert, the others raise [ValueError]. *)
Definition py_float (s : string) : exn Q :=
  let '(ip, rest) := take_digits s in
  match rest with
  | EmptyString =>
      if ip is EmptyString then Raise (float_error s) else Ok (decimal ip "")
  | String "." fp =>
      let '(fd, rest') := take_digits fp in
      match rest', ip, fd with
      | EmptyString, EmptyString, EmptyString => Raise (float_error s)
      | EmptyString, _, _ => Ok (decimal ip fd)
      | _, _, _ => Raise (float_error s)
      end
  | _ => Raise (float_error s)
  end.

(** [xs[j]] *)
Definition getitem {A} (xs : list A) (j : nat) : exn A :=
  match xs !! j with
  | Some x => Ok x
  | None => Raise (Exc IndexError "list index out of range")
  end.

(** ** The record shared by the extractors and the renderer

    The program passes a [dict]; a field is [None] when its key is absent,
    which the renderer reads with [.get(key, default)]. *)

Record FinancialRecord := {
  company_name : option string;
  fiscal_years : option (list string);
  financial_data : option (gmap string (gmap string Q));
  currency : option string;
  units : option string;
  notes : option (list string);
}.

Definition ws1 : regex := Many1 is_space.  (* \s+ *)

(** ** The spreadsheet library

    What the renderer uses of [openpyxl]: a workbook with its active
    sheet, cells addressed by (row, column) and created on first access,
    merged ranges and column widths. *)
Module openpyxl.

Record Font := {
  bold : bool;
  italic : bool;
  color : option string;
  size : option nat;
}.

Record PatternFill := {
  start_color : string;
  end_color : string;
  fill_type : string;
}.

(** A border with the same [Side(style=...)] on its four sides. *)
Record Border := {
  side_left : string;
  side_right : string;
  side_top : string;
  side_bottom : string;
}.

Record Alignment := { horizontal : string }.

Inductive CellValue :=
  | Blank
  | Text (s : string)
  | Number (q : Q).

Record Cell := {
  value : CellValue;
  font : option Font;
  fill : option PatternFill;
  border : option Border;
  alignment : option Alignment;
  number_format : string;
}.

Definition new_cell : Cell :=
  {| value := Blank; font := None; fill := None; border := None;
     alignment := None; number_format := "General" |}.

Definition set_value (v : CellValue) (c : Cell) : Cell :=
  {| value := v; font := font c; fill := fill c; border := border c;
     alignment := alignment c; number_format := number_format c |}.
Definition set_font (f : Font) (c : Cell) : Cell :=
  {| value := value c; font := Some f; fill := fill c; border := border c;
     alignment := alignment c; number_format := number_format c |}.
Definition set_fill (f : PatternFill) (c : Cell) : Cell :=
  {| value := value c; font := font c; fill := Some f; border := border c;
     alignment := alignment c; number_format := number_format c |}.
Definition set_border (b : Border) (c : Cell) : Cell :=
  {| value := value c; font := font c; fill := fill c; border := Some b;
     alignment := alignment c; number_format := number_format c |}.
Definition set_alignment (a : Alignment) (c : Cell) : Cell :=
  {| value := value c; font := font c; fill := fill c; border := border c;
     alignment := Some a; number_format := number_format c |}.
Definition set_number_format (f : string) (c : Cell) : Cell :=
  {| value := value c; font := font c; fill := fill c; border := border c;
     alignment := alignment c; number_format := f |}.

(** A range such as [A1:E1], by its corner cells. *)
Definition Range : Type := (nat * nat) * (nat * nat).

Record Worksheet := {
  title : string;
  cells : gmap (nat * nat) Cell;
  merged_cells : list Range;
  column_dimensions : gmap string nat;
}.

Record Workbook := { active : Worksheet }.

(** [openpyxl.Workbook()] *)
Definition new_workbook : Workbook :=
  {| active := {| title := "Sheet"; cells := ∅; merged_cells := [];
                  column_dimensions := ∅ |} |}.

Definition set_title (t : string) (ws : Worksheet) : Worksheet :=
  {| title := t; cells := cells ws; merged_cells := merged_cells ws;
     column_dimensions := column_dimensions ws |}.

(** The cell at [pos], created when the sheet does not have it yet. *)
Definition cell_at (pos : nat * nat) (ws : Worksheet) : Cell :=
  default new_cell (cells ws !! pos).

(** An assignment to the cell at [pos] or to one of its attributes. *)
Definition update_cell (pos : nat * nat) (f : Cell → Cell) (ws : Worksheet)
    : Worksheet :=
  {| title := title ws; cells := <[pos := f (cell_at pos ws)]> (cells ws);
     merged_cells := merged_cells ws;
     column_dimensions := column_dimensions ws |}.

(** [ws.merge_cells(range)] *)
Definition merge_cells (r : Range) (ws : Worksheet) : Worksheet :=
  {| title := title ws; cells := cells ws;
     merged_cells := merged_cells ws ++ [r];
     column_dimensions := column_dimensions ws |}.

(** [ws.column_dimensions[letter].width = w] *)
Definition set_width (letter : string) (w : nat) (ws : Worksheet) : Worksheet :=
  {| title := title ws; cells := cells ws; merged_cells := merged_cells ws;
     column_dimensions := <[letter := w]> (column_dimensions ws) |}.

Fixpoint column_letters (fuel col_idx : nat) (acc : string) : string :=
  match fuel with
  | 0 => acc
  | S fuel' =>
      if col_idx =? 0 then acc
      else
        let q := col_idx / 26 in
        let r := col_idx mod 26 in
        if r =? 0 then column_letters fuel' (q - 1) (String (ascii_of_nat (26 + 64)) acc)
        else column_letters fuel' q (String (ascii_of_nat (r + 64)) acc)
  end.

(** [get_column_letter(col_idx)]: defined for columns 1 to 18278 (A to ZZZ). *)
Definition get_column_letter (col_idx : nat) : exn string :=
  if (1 <=? col_idx) && (N.of_nat col_idx <=? 18278)%N
  then Ok (column_letters 3 col_idx "")
  else Raise (Exc ValueError ("Invalid column index " +:+ pretty col_idx)).

End openpyxl.

(** * src/app.py *)
Module App.

(** ** [extract_financial_data_with_patterns] *)

(** [([A-Z][A-Za-z\s&]+(?:LIMITED|LTD|CORPORATION|CORP|INC|INDUSTRIES))] *)
Definition company_pattern : regex :=
  cat [Cls is_upper_az;
       Many1 (λ c, is_upper_az c || is_lower_az c || is_space c || ascii_eqb c "&");
       alt [Lit "LIMITED"; Lit "LTD"; Lit "CORPORATION"; Lit "CORP"; Lit "INC";
            Lit "INDUSTRIES"]].

(** [\b(20\d{2})\b] *)
Definition year_pattern : regex :=
  cat [Bound; Lit "20"; Cls is_digit; Cls is_digit; Bound].

(** [[\d,]+\.?\d*] *)
Definition number_pattern : regex :=
  cat [Many1 (λ c, is_digit c || ascii_eqb c ","); Opt (Chr "."); Many is_digit].

(** The rupee sign is U+20B9, outside the modelled code points. *)
Definition has_rupee_sign (s : string) : bool := false.

Definition line_items : list (string * list regex) :=
  [ ("revenue",
      [ cat [Lit "revenue"; ws1; Lit "from"; ws1; Lit "operations"];
        cat [Lit "total"; ws1; Lit "revenue"];
        Lit "sales";
        cat [Lit "net"; ws1; Lit "revenue"];
        Lit "revenues" ]);
    ("cost_of_revenue",
      [ cat [Lit "cost"; ws1; Lit "of"; ws1;
             alt [Lit "revenue"; cat [Lit "goods"; ws1; Lit "sold"]; Lit "materials"]];
        Lit "cogs";
        cat [Lit "cost"; ws1; Lit "of"; ws1; Lit "sales"] ]);
    ("gross_profit",
      [ cat [Lit "gross"; ws1; Lit "profit"];
        cat [Lit "gross"; ws1; Lit "margin"] ]);
    ("operating_expenses",
      [ cat [Lit "operating"; ws1; alt [Lit "expenses"; Lit "costs"]];
        Lit "sga";
        cat [Lit "selling"; Many dot; Lit "administrative"] ]);
    ("operating_income",
      [ cat [Lit "operating"; ws1; alt [Lit "income"; Lit "profit"]];
        Lit "ebit" ]);
    ("interest_expense",
      [ cat [Lit "interest"; ws1; alt [Lit "expense"; Lit "paid"]] ]);
    ("tax_expense",
      [ cat [Opt (cat [Lit "income"; ws1]); Lit "tax"; ws1;
             alt [Lit "expense"; Lit "cost"]];
        cat [Lit "provision"; ws1; Lit "for"; ws1; Lit "taxes"] ]);
    ("net_income",
      [ cat [Lit "net"; ws1; alt [Lit "income"; Lit "profit"]];
        Lit "earnings";
        cat [Lit "net"; ws1; Lit "earnings"] ]);
    ("total_assets", [ cat [Lit "total"; ws1; Lit "assets"] ]);
    ("total_liabilities", [ cat [Lit "total"; ws1; Lit "liabilities"] ]);
    ("shareholders_equity",
      [ cat [alt [Lit "shareholders"; Lit "stockholders"]; ws1; Lit "equity"];
        cat [Lit "total"; ws1; Lit "equity"] ]) ].

(** [sorted(set(re.findall(year_pattern, document_text)), reverse=True)] *)
Definition find_years (document_text : string) : list string :=
  merge_sort (flip String.le)
    (elements (list_to_set (re_findall year_pattern document_text) : gset string)).

(** Lines 72-77: the years found, or the default pair; at most three. *)
Definition fiscal_years_of (document_text : string) : list string :=
  let years := find_years document_text in
  let years := if years is [] then ["2024"; "2023"] else years in
  take 3 years.

(** Lines 114-115, the body of the inner [try]. *)
Definition store_value (year tok : string) (d : gmap string Q) : exn (gmap string Q) :=
  value ← py_float (replace_char "," "" tok);
  mret (<[year := value]> d).

(** Lines 112-117: the guarded assignment for the year at index [j]. *)
Definition assign_if_present (j : nat) (year : string) (numbers : list string)
    (d : gmap string Q) : exn (gmap string Q) :=
  if j <? length numbers then
    try_except (tok ← getitem numbers j; store_value year tok d)
               (λ _, mret d)
  else mret d.

(** Lines 111-117: [for j, year in enumerate(fiscal_years)], from index [j]. *)
Fixpoint assign_years (j : nat) (years numbers : list string) (d : gmap string Q)
    : exn (gmap string Q) :=
  match years with
  | [] => mret d
  | year :: rest =>
      d' ← assign_if_present j year numbers d;
      assign_years (S j) rest numbers d'
  end.

Definition matches (pattern : regex) (line : string) : bool :=
  bool_decide (is_Some (re_search true pattern line)).

(** Lines 103-118: [for i, line in enumerate(lines)], left by [break] after
    the first line that matches and has numbers. *)
Fixpoint scan_lines (pattern : regex) (years lines : list string) (d : gmap string Q)
    : exn (gmap string Q) :=
  match lines with
  | [] => mret d
  | line :: rest =>
      if matches pattern line then
        let numbers := re_findall number_pattern line in
        if numbers is [] then scan_lines pattern years rest d
        else assign_years 0 years numbers d
      else scan_lines pattern years rest d
  end.

(** Lines 100-118: [for pattern in patterns]. *)
Fixpoint scan_patterns (patterns : list regex) (years lines : list string)
    (d : gmap string Q) : exn (gmap string Q) :=
  match patterns with
  | [] => mret d
  | pattern :: rest =>
      d' ← scan_lines pattern years lines d;
      scan_patterns rest years lines d'
  end.

(** Lines 97-118: [for item_key, patterns in line_items.items()]; the dict
    stored under [item_key] at line 98 is the one the inner loops fill. *)
Fixpoint scan_items (items : list (string * list regex)) (years lines : list string)
    (fd : gmap string (gmap string Q)) : exn (gmap string (gmap string Q)) :=
  match items with
  | [] => mret fd
  | (item_key, patterns) :: rest =>
      d ← scan_patterns patterns years lines ∅;
      scan_items rest years lines (<[item_key := d]> fd)
  end.

(** Line 121: [{k: v for k, v in financial_data.items() if v}] *)
Definition remove_empty (fd : gmap string (gmap string Q)) : gmap string (gmap string Q) :=
  filter (λ kv, kv.2 ≠ ∅) fd.

Definition fixed_notes : list string :=
  [ "Data extracted using pattern matching";
    "Some values may be approximate if document format varies";
    "Manual review recommended for accuracy" ].

(** The body of the outer [try], lines 60-136. *)
Definition extract_body (document_text : string) : exn FinancialRecord :=
  let company_match := re_search false company_pattern document_text in
  let company_name :=
    match company_match with
    | Some m => strip m
    | None => "Unknown"
    end in
  let has_crores := contains "crores" (lower document_text) in
  let currency := if has_rupee_sign document_text || has_crores then "INR" else "USD" in
  let units := if has_crores then "Crores" else "Actual" in
  let fiscal_years := fiscal_years_of document_text in
  let lines := split_on "010" document_text in
  financial_data ← scan_items line_items fiscal_years lines ∅;
  let financial_data := remove_empty financial_data in
  mret {| company_name := Some company_name;
          fiscal_years := Some fiscal_years;
          financial_data := Some financial_data;
          currency := Some currency;
          units := Some units;
          notes := Some fixed_notes |}.

Definition extract_financial_data_with_patterns (document_text : string)
    : option FinancialRecord * option string :=
  match extract_body document_text with
  | Ok result => (Some result, None)
  | Raise e => (None, Some ("Error extracting financial data: " +:+ exc_msg e))
  end.


(** ** [create_excel_workbook] *)

Import openpyxl.

Definition header_fill : PatternFill :=
  {| start_color := "1F4E78"; end_color := "1F4E78"; fill_type := "solid" |}.
Definition header_font : Font :=
  {| bold := true; italic := false; color := Some "FFFFFF"; size := Some 12 |}.
Definition data_fill : PatternFill :=
  {| start_color := "D9E1F2"; end_color := "D9E1F2"; fill_type := "solid" |}.
Definition missing_fill : PatternFill :=
  {| start_color := "FFC7CE"; end_color := "FFC7CE"; fill_type := "solid" |}.
Definition missing_font : Font :=
  {| bold := false; italic := true; color := Some "9C0006"; size := None |}.
Definition thin_border : Border :=
  {| side_left := "thin"; side_right := "thin"; side_top := "thin";
     side_bottom := "thin" |}.
Definition bold_font (sz : option nat) : Font :=
  {| bold := true; italic := false; color := None; size := sz |}.

Definition financial_items_list : list (string * string) :=
  [ ("revenue", "Revenue");
    ("cost_of_revenue", "Cost of Revenue");
    ("gross_profit", "Gross Profit");
    ("operating_expenses", "Operating Expenses");
    ("operating_income", "Operating Income");
    ("interest_expense", "Interest Expense");
    ("tax_expense", "Tax Expense");
    ("net_income", "Net Income");
    ("total_assets", "Total Assets");
    ("total_liabilities", "Total Liabilities");
    ("shareholders_equity", "Shareholders' Equity") ].

(** Lines 176-181: the header cells, from column [col_idx]. *)
Fixpoint header_cells (col_idx : nat) (years : list string) (ws : Worksheet)
    : Worksheet :=
  match years with
  | [] => ws
  | year :: rest =>
      let pos := (5, col_idx) in
      let ws := update_cell pos (set_value (Text ("FY " +:+ year))) ws in
      let ws := update_cell pos (set_fill header_fill) ws in
      let ws := update_cell pos (set_font header_font) ws in
      let ws := update_cell pos (set_border thin_border) ws in
      header_cells (S col_idx) rest ws
  end.

(** Lines 207-219: what one turn of the inner loop does to its cell. *)
Definition year_cell (data : gmap string (gmap string Q)) (key year : string)
    (c : Cell) : Cell :=
  let c :=
    match data !! key with
    | Some item =>
        match item !! year with
        | Some v => set_number_format "#,##0.00" (set_value (Number v) c)
        | None => set_font missing_font (set_fill missing_fill (set_value (Text "N/A") c))
        end
    | None => set_font missing_font (set_fill missing_fill (set_value (Text "N/A") c))
    end in
  set_alignment {| horizontal := "right" |} (set_border thin_border c).

(** Lines 206-219: the year cells of one row, from column [col_idx]. *)
Fixpoint year_cells (data : gmap string (gmap string Q)) (key : string)
    (row col_idx : nat) (years : list string) (ws : Worksheet) : Worksheet :=
  match years with
  | [] => ws
  | year :: rest =>
      year_cells data key row (S col_idx) rest
        (update_cell (row, col_idx) (year_cell data key year) ws)
  end.

(** Lines 201-221: one row per item; returns the next free row. *)
Fixpoint item_rows (data : gmap string (gmap string Q)) (years : list string)
    (items : list (string * string)) (row : nat) (ws : Worksheet)
    : nat * Worksheet :=
  match items with
  | [] => (row, ws)
  | (key, label) :: rest =>
      let ws := update_cell (row, 1) (set_value (Text label)) ws in
      let ws := update_cell (row, 1) (set_font (bold_font None)) ws in
      let ws := update_cell (row, 1) (set_border thin_border) ws in
      let ws := year_cells data key row 2 years ws in
      item_rows data years rest (row + 1) ws
  end.

(** Lines 228-231: one merged row per note. The bullet is kept as the
    bytes of its UTF-8 encoding. *)
Fixpoint note_rows (notes : list string) (row : nat) (ws : Worksheet) : Worksheet :=
  match notes with
  | [] => ws
  | note :: rest =>
      let row := row + 1 in
      let ws := update_cell (row, 1) (set_value (Text ("• " +:+ note))) ws in
      let ws := merge_cells ((row, 1), (row, 5)) ws in
      note_rows rest row ws
  end.

(** Lines 235-236: [for col_idx in range(2, 2 + len(years))], from [col_idx]. *)
Fixpoint year_widths (col_idx n : nat) (ws : Worksheet) : exn Worksheet :=
  match n with
  | 0 => mret ws
  | S n' =>
      letter ← get_column_letter col_idx;
      year_widths (S col_idx) n' (set_width letter 18 ws)
  end.

(** The argument, [financial_data] in the source, is called [record] here. *)
Definition create_excel_workbook (record : FinancialRecord) : exn Workbook :=
  let wb := new_workbook in
  let ws := active wb in
  let ws := set_title "Financial Data" ws in
  (* Title *)
  let ws := update_cell (1, 1)
              (set_value (Text ("Financial Statement - " +:+
                 default "Unknown Company" (company_name record)))) ws in
  let ws := update_cell (1, 1) (set_font (bold_font (Some 14))) ws in
  let ws := merge_cells ((1, 1), (1, 5)) ws in
  (* Metadata *)
  let ws := update_cell (2, 1)
              (set_value (Text ("Currency: " +:+
                 default "Unknown" (currency record)))) ws in
  let ws := update_cell (3, 1)
              (set_value (Text ("Units: " +:+
                 default "Actual" (units record)))) ws in
  (* Column headers *)
  let years := default [] (fiscal_years record) in
  let ws := update_cell (5, 1) (set_value (Text "Line Item")) ws in
  let ws := update_cell (5, 1) (set_fill header_fill) ws in
  let ws := update_cell (5, 1) (set_font header_font) ws in
  let ws := update_cell (5, 1) (set_border thin_border) ws in
  let ws := header_cells 2 years ws in
  (* Financial items *)
  let data := default ∅ (financial_data record) in
  let '(row, ws) := item_rows data years financial_items_list 6 ws in
  (* Notes section *)
  let row := row + 2 in
  let ws := update_cell (row, 1) (set_value (Text "Notes & Assumptions:")) ws in
  let ws := update_cell (row, 1) (set_font (bold_font None)) ws in
  let ws := note_rows (default [] (notes record)) row ws in
  (* Adjust column widths *)
  let ws := set_width "A" 25 ws in
  ws ← year_widths 2 (length years) ws;
  mret {| active := ws |}.


(** ** The upload endpoint *)

Definition ALLOWED_EXTENSIONS : list string := ["pdf"; "txt"; "docx"].

Definition allowed_file (filename : string) : bool :=
  match after_last_dot filename with
  | Some ext => bool_decide (lower ext ∈ ALLOWED_EXTENSIONS)
  | None => false
  end.

(** What the handler reads of a request: whether the form has a [file]
    field, its filename, and what saving the upload and calling
    [extract_text_from_file] on it gives: the pair [(text, error)] it
    returns, or an exception. *)
Record Upload := {
  has_file : bool;
  filename : string;
  text_result : exn (option string * option string);
}.

Inductive Response :=
  | JsonError (status : nat) (error : string)   (* jsonify({'error': ...}), status *)
  | SendFile (workbook : Workbook) (download_name : string)   (* 200 *)
  | Unhandled (e : exception).                   (* left to Flask: 500 *)

(** Truth value of a string or [None]. *)
Definition truthy (o : option string) : bool :=
  match o with
  | Some (String _ _) => true
  | _ => false
  end.

Definition extract (req : Upload) : Response :=
  if negb (has_file req) then JsonError 400 "No file provided"
  else if bool_decide (filename req = "") then JsonError 400 "No file selected"
  else if negb (allowed_file (filename req)) then
    JsonError 400 "Only PDF, TXT, and DOCX files are supported"
  else
    match text_result req with
    | Raise e => Unhandled e
    | Ok (document_text, error) =>
        if truthy error then JsonError 400 (default "" error)
        else if negb (truthy document_text)
                || (String.length (strip (default "" document_text)) <? 100)
        then JsonError 400 "Document appears to be empty or unreadable"
        else
          let '(financial_data, error) :=
            extract_financial_data_with_patterns (default "" document_text) in
          if truthy error then JsonError 400 (default "" error)
          else
            match financial_data with
            | None =>
                Unhandled (Exc AttributeError
                             "'NoneType' object has no attribute 'get'")
            | Some record =>
                match create_excel_workbook record with
                | Raise e => Unhandled e
                | Ok workbook =>
                    SendFile workbook
                      ("financial_extract_" +:+
                       replace_char " " "_" (default "unknown" (company_name record)) +:+
                       ".xlsx")
                end
            end
    end.

End App.

(** * src/api/extract.py *)
Module Api.

(** ** [extract_financial_data_with_claude] *)

(** A block of the reply: text, or a block of another kind, which has no
    [text] attribute. *)
Inductive ContentBlock :=
  | TextBlock (text : string)
  | OtherBlock.

Record Message := { content : list ContentBlock }.

Definition block_text (b : ContentBlock) : exn string :=
  match b with
  | TextBlock t => Ok t
  | OtherBlock => Raise (Exc AttributeError "object has no attribute 'text'")
  end.

(** [document_text[:8000]] *)
Definition truncated (document_text : string) : string :=
  str_take (N.to_nat 8000) document_text.

Section Claude.
(** The parsed values and [json.loads]: the value, or the message of
    the [JSONDecodeError]. *)
Variable JSON : Type.
Variable json_loads : string → JSON + string.
(** Creating the client and calling it with a prompt: the message
    received, or the text of the exception of a failed call. *)
Variable messages_create : string → Message + string.
(** The fixed instructions of lines 58-92, before the document text. *)
Variable instructions : string.

Definition prompt (document_text : string) : string :=
  instructions +:+ truncated document_text +:+ String "010" EmptyString.

Definition call (p : string) : exn Message :=
  match messages_create p with
  | inl message => Ok message
  | inr e => Raise (Exc APIError e)
  end.

Definition loads (s : string) : exn JSON :=
  match json_loads s with
  | inl v => Ok v
  | inr e => Raise (Exc JSONDecodeError e)
  end.

(** The body of the [try], lines 56-106. *)
Definition claude_body (document_text : string) : exn JSON :=
  message ← call (prompt document_text);
  block ← getitem (content message) 0;
  text ← block_text block;
  let response_text := strip text in
  loads response_text.

Definition extract_financial_data_with_claude (document_text : string)
    : option JSON * option string :=
  match claude_body document_text with
  | Ok financial_data => (Some financial_data, None)
  | Raise e =>
      match exc_cls e with
      | JSONDecodeError =>
          (None, Some ("Failed to parse financial data: " +:+ exc_msg e))
      | _ => (None, Some ("Claude API error: " +:+ exc_msg e))
      end
  end.
End Claude.

(** ** [create_excel_workbook] *)

Import openpyxl.

Definition header_fill : PatternFill :=
  {| start_color := "1F4E78"; end_color := "1F4E78"; fill_type := "solid" |}.
Definition header_font : Font :=
  {| bold := true; italic := false; color := Some "FFFFFF"; size := Some 12 |}.
Definition missing_fill : PatternFill :=
  {| start_color := "FFC7CE"; end_color := "FFC7CE"; fill_type := "solid" |}.
Definition missing_font : Font :=
  {| bold := false; italic := true; color := Some "9C0006"; size := None |}.
Definition thin_border : Border :=
  {| side_left := "thin"; side_right := "thin"; side_top := "thin";
     side_bottom := "thin" |}.
Definition bold_font (sz : option nat) : Font :=
  {| bold := true; italic := false; color := None; size := sz |}.

Definition financial_items_list : list (string * string) :=
  [ ("revenue", "Revenue");
    ("cost_of_revenue", "Cost of Revenue");
    ("gross_profit", "Gross Profit");
    ("operating_expenses", "Operating Expenses");
    ("operating_income", "Operating Income");
    ("interest_expense", "Interest Expense");
    ("tax_expense", "Tax Expense");
    ("net_income", "Net Income");
    ("total_assets", "Total Assets");
    ("total_liabilities", "Total Liabilities");
    ("shareholders_equity", "Shareholders' Equity") ].

(** Lines 147-152: the header cells, from column [col_idx]. *)
Fixpoint header_cells (col_idx : nat) (years : list string) (ws : Worksheet)
    : Worksheet :=
  match years with
  | [] => ws
  | year :: rest =>
      let pos := (5, col_idx) in
      let ws := update_cell pos (set_value (Text ("FY " +:+ year))) ws in
      let ws := update_cell pos (set_fill header_fill) ws in
      let ws := update_cell pos (set_font header_font) ws in
      let ws := update_cell pos (set_border thin_border) ws in
      header_cells (S col_idx) rest ws
  end.

(** Lines 178-190: what one turn of the inner loop does to its cell. *)
Definition year_cell (data : gmap string (gmap string Q)) (key year : string)
    (c : Cell) : Cell :=
  let c :=
    match data !! key with
    | Some item =>
        match item !! year with
        | Some v => set_number_format "#,##0.00" (set_value (Number v) c)
        | None => set_font missing_font (set_fill missing_fill (set_value (Text "N/A") c))
        end
    | None => set_font missing_font (set_fill missing_fill (set_value (Text "N/A") c))
    end in
  set_alignment {| horizontal := "right" |} (set_border thin_border c).

(** Lines 177-190: the year cells of one row, from column [col_idx]. *)
Fixpoint year_cells (data : gmap string (gmap string Q)) (key : string)
    (row col_idx : nat) (years : list string) (ws : Worksheet) : Worksheet :=
  match years with
  | [] => ws
  | year :: rest =>
      year_cells data key row (S col_idx) rest
        (update_cell (row, col_idx) (year_cell data key year) ws)
  end.

(** Lines 172-192: one row per item; returns the next free row. *)
Fixpoint item_rows (data : gmap string (gmap string Q)) (years : list string)
    (items : list (string * string)) (row : nat) (ws : Worksheet)
    : nat * Worksheet :=
  match items with
  | [] => (row, ws)
  | (key, label) :: rest =>
      let ws := update_cell (row, 1) (set_value (Text label)) ws in
      let ws := update_cell (row, 1) (set_font (bold_font None)) ws in
      let ws := update_cell (row, 1) (set_border thin_border) ws in
      let ws := year_cells data key row 2 years ws in
      item_rows data years rest (row + 1) ws
  end.

(** Lines 199-202: one merged row per note. The bullet is kept as the
    bytes of its UTF-8 encoding. *)
Fixpoint note_rows (notes : list string) (row : nat) (ws : Worksheet) : Worksheet :=
  match notes with
  | [] => ws
  | note :: rest =>
      let row := row + 1 in
      let ws := update_cell (row, 1) (set_value (Text ("• " +:+ note))) ws in
      let ws := merge_cells ((row, 1), (row, 5)) ws in
      note_rows rest row ws
  end.

(** Lines 206-207: [for col_idx in range(2, 2 + len(years))], from [col_idx]. *)
Fixpoint year_widths (col_idx n : nat) (ws : Worksheet) : exn Worksheet :=
  match n with
  | 0 => mret ws
  | S n' =>
      letter ← get_column_letter col_idx;
      year_widths (S col_idx) n' (set_width letter 18 ws)
  end.

(** The argument, [financial_data] in the source, is called [record] here. *)
Definition create_excel_workbook (record : FinancialRecord) : exn Workbook :=
  let wb := new_workbook in
  let ws := active wb in
  let ws := set_title "Financial Data" ws in
  (* Title *)
  let ws := update_cell (1, 1)
              (set_value (Text ("Financial Statement - " +:+
                 default "Unknown Company" (company_name record)))) ws in
  let ws := update_cell (1, 1) (set_font (bold_font (Some 14))) ws in
  let ws := merge_cells ((1, 1), (1, 5)) ws in
  (* Metadata *)
  let ws := update_cell (2, 1)
              (set_value (Text ("Currency: " +:+
                 default "Unknown" (currency record)))) ws in
  let ws := update_cell (3, 1)
              (set_value (Text ("Units: " +:+
                 default "Actual" (units record)))) ws in
  (* Column headers *)
  let years := default [] (fiscal_years record) in
  let ws := update_cell (5, 1) (set_value (Text "Line Item")) ws in
  let ws := update_cell (5, 1) (set_fill header_fill) ws in
  let ws := update_cell (5, 1) (set_font header_font) ws in
  let ws := update_cell (5, 1) (set_border thin_border) ws in
  let ws := header_cells 2 years ws in
  (* Financial items *)
  let data := default ∅ (financial_data record) in
  let '(row, ws) := item_rows data years financial_items_list 6 ws in
  (* Notes section *)
  let row := row + 2 in
  let ws := update_cell (row, 1) (set_value (Text "Notes & Assumptions:")) ws in
  let ws := update_cell (row, 1) (set_font (bold_font None)) ws in
  let ws := note_rows (default [] (notes record)) row ws in
  (* Adjust column widths *)
  let ws := set_width "A" 25 ws in
  ws ← year_widths 2 (length years) ws;
  mret {| active := ws |}.

End Api.

(** * The text extractors

    [extract_text_from_pdf] and [extract_text_from_file], lines 23-55 of
    [src/app.py] and, with the same text, lines 19-51 of
    [src/api/extract.py]. *)
Module Files.

(** What the two functions read of the outside.
    - [pdf_pages path]: [pdfplumber.open(path)], then for each page of
      [pdf.pages], in order, what [page.extract_text()] gives: a text,
      [None], or an exception; opening can raise too.
    - [read_text path]: [open(path, 'r', encoding='utf-8')] and [f.read()].
    - [docx_paragraphs path]: [Document(path)] and the [text] of each of
      [doc.paragraphs]. *)
Record FileSystem := {
  pdf_pages : string → exn (list (exn (option string)));
  read_text : string → exn string;
  docx_paragraphs : string → exn (list string);
}.

(** Line 29: [text += page.extract_text() or ""], for the pages left. *)
Fixpoint read_pages (pages : list (exn (option string))) (text : string) : exn string :=
  match pages with
  | [] => mret text
  | page :: rest =>
      page_text ← page;
      read_pages rest (text +:+ default "" page_text)
  end.

Definition extract_text_from_pdf (fs : FileSystem) (file_path : string)
    : option string * option string :=
  match (pages ← pdf_pages fs file_path; read_pages pages "") with
  | Ok text => (Some text, None)
  | Raise e => (None, Some ("Error reading PDF: " +:+ exc_msg e))
  end.

(** [sep.join(parts)] *)
Fixpoint join (sep : string) (parts : list string) : string :=
  match parts with
  | [] => ""
  | [part] => part
  | part :: rest => part +:+ sep +:+ join sep rest
  end.

Definition extract_text_from_file (fs : FileSystem) (file_path : string)
    : exn (option string * option string) :=
  file_ext ← match after_last_dot file_path with
             | Some ext => Ok (lower ext)
             | None => Raise (Exc IndexError "list index out of range")
             end;
  if bool_decide (file_ext = "pdf") then
    mret (extract_text_from_pdf fs file_path)
  else if bool_decide (file_ext = "txt") then
    match read_text fs file_path with
    | Ok text => mret (Some text, None)
    | Raise e => mret (None, Some ("Error reading text file: " +:+ exc_msg e))
    end
  else if bool_decide (file_ext = "docx") then
    match docx_paragraphs fs file_path with
    | Ok paragraphs => mret (Some (join (String "010" EmptyString) paragraphs), None)
    | Raise e => mret (None, Some ("Error reading DOCX: " +:+ exc_msg e))
    end
  else mret (None, Some "Unsupported file type").

End Files.

(** * Definitions used in the statements *)

(** ** Predicates used in the statements *)

(** A four-character token [20dd]. *)
Definition is_year_token (y : string) : Prop :=
  ∃ d1 d2, y = String "2" (String "0" (String d1 (String d2 EmptyString)))
           ∧ is_digit d1 = true ∧ is_digit d2 = true.

(** The last character of [s], or [o] when [s] is empty. *)
Fixpoint str_last (o : option ascii) (s : string) : option ascii :=
  match s with
  | EmptyString => o
  | String c s' => str_last (Some c) s'
  end.

(** [y] occurs in [text]. *)
Definition occurs (y text : string) : Prop :=
  ∃ pre post, text = pre +:+ y +:+ post.

(** [y] occurs in [text] between two word boundaries. *)
Definition occurs_delimited (y text : string) : Prop :=
  ∃ pre post, text = pre +:+ y +:+ post
              ∧ word_at (str_last None pre) = false
              ∧ word_at (str_head post) = false.

(** Strictly descending in Python's string order. *)
Definition str_gt (a b : string) : Prop := String.ltb b a = true.

(** What [year_pattern] matches at the head of [s]. *)
Definition year_at (prev : option ascii) (s : string) : option string :=
  match s with
  | String a (String b (String d1 (String d2 rest))) =>
      if ascii_eqb "2" a && ascii_eqb "0" b && is_digit d1 && is_digit d2
         && negb (word_at prev) && negb (word_at (str_head rest))
      then Some (String a (String b (String d1 (String d2 EmptyString))))
      else None
  | _ => None
  end.

(** [y] is matched by [year_pattern] somewhere in [s]. *)
Inductive year_occ (y : string) : option ascii → string → Prop :=
  | year_occ_here prev s : year_at prev s = Some y → year_occ y prev s
  | year_occ_later prev c s : year_occ y (Some c) s → year_occ y prev (String c s).

(** The first [n] characters exist and are word characters. *)
Fixpoint word_prefix (n : nat) (s : string) : Prop :=
  match n, s with
  | 0, _ => True
  | S n', String c s' => is_word c = true ∧ word_prefix n' s'
  | S _, EmptyString => False
  end.

Definition skip_inv (prev : option ascii) (s : string) (skip : nat) : Prop :=
  match skip with
  | 0 => True
  | S n => word_at prev = true ∧ word_prefix n s
  end.

(** Following the specification's words: the years are all the substrings
    matching [20\d\d], not only those between word boundaries. *)
Definition spec_year_pattern : regex := cat [Lit "20"; Cls is_digit; Cls is_digit].

Definition spec_fiscal_years (document_text : string) : list string :=
  let years :=
    merge_sort (flip String.le)
      (elements (list_to_set (re_findall spec_year_pattern document_text) : gset string)) in
  take 3 (if years is [] then ["2024"; "2023"] else years).

(** The number a token stands for, when [float] accepts it. *)
Definition token_value (tok : string) : option Q :=
  match py_float (replace_char "," "" tok) with
  | Ok v => Some v
  | Raise _ => None
  end.

(** The value of the [i]-th token of a list of tokens. *)
Definition value_at (numbers : list string) (i : nat) : option Q :=
  numbers !! i ≫= token_value.

(** One turn of the loop over the years, as a function. *)
Definition step_value (numbers : list string) (j : nat) (year : string)
    (d : gmap string Q) : gmap string Q :=
  match value_at numbers j with
  | Some v => <[year := v]> d
  | None => d
  end.

(** A line the scan of [pattern] stops at. *)
Definition usable (pattern : regex) (line : string) : bool :=
  App.matches pattern line
  && bool_decide (re_findall App.number_pattern line ≠ []).

(** The line the scan of [pattern] stops at: the first usable one. *)
Fixpoint hit_line (pattern : regex) (lines : list string) : option string :=
  match lines with
  | [] => None
  | line :: rest => if usable pattern line then Some line else hit_line pattern rest
  end.

(** What [pattern] contributes for the year at position [i]. *)
Definition pattern_value (pattern : regex) (lines : list string) (i : nat) : option Q :=
  hit_line pattern lines ≫= λ line, value_at (re_findall App.number_pattern line) i.

(** The last contribution among the patterns, in their order, on top of [acc]. *)
Definition last_value (patterns : list regex) (lines : list string) (i : nat)
    (acc : option Q) : option Q :=
  foldl (λ acc pattern,
           match pattern_value pattern lines i with
           | Some v => Some v
           | None => acc
           end) acc patterns.

(** The lines of a document. *)
Definition lines_of (document_text : string) : list string := split_on "010" document_text.

(** The dict the extractor builds for one line item, before empty ones are
    removed. *)
Definition item_dict (patterns : list regex) (document_text : string)
    : exn (gmap string Q) :=
  App.scan_patterns patterns (App.fiscal_years_of document_text)
    (lines_of document_text) ∅.

(** [fd[key][year]], when both are present. *)
Definition lookup2 (fd : gmap string (gmap string Q)) (key year : string) : option Q :=
  match fd !! key with
  | Some d => d !! year
  | None => None
  end.

(** The value the extractor reports for a line item and a year. *)
Definition reported (document_text key year : string) : option Q :=
  match App.extract_financial_data_with_patterns document_text with
  | (Some r, _) =>
      match financial_data r with
      | Some fd => lookup2 fd key year
      | None => None
      end
  | _ => None
  end.

(** Following the specification's words: the first pattern, in priority
    order, that matches a line decides, and its first matching line is the
    one read. *)
Fixpoint spec_matched_line (patterns : list regex) (lines : list string) : option string :=
  match patterns with
  | [] => None
  | pattern :: rest =>
      match find (App.matches pattern) lines with
      | Some line => Some line
      | None => spec_matched_line rest lines
      end
  end.

Definition spec_item_value (patterns : list regex) (lines : list string) (i : nat)
    : option Q :=
  spec_matched_line patterns lines ≫= λ line,
    value_at (re_findall App.number_pattern line) i.

(** ** The cells the renderer writes in an item row *)

Definition label_cell (label : string) : openpyxl.Cell :=
  {| openpyxl.value := openpyxl.Text label;
     openpyxl.font := Some (App.bold_font None);
     openpyxl.fill := None;
     openpyxl.border := Some App.thin_border;
     openpyxl.alignment := None;
     openpyxl.number_format := "General" |}.

Definition number_cell (v : Q) : openpyxl.Cell :=
  {| openpyxl.value := openpyxl.Number v;
     openpyxl.font := None;
     openpyxl.fill := None;
     openpyxl.border := Some App.thin_border;
     openpyxl.alignment := Some {| openpyxl.horizontal := "right" |};
     openpyxl.number_format := "#,##0.00" |}.

Definition missing_cell : openpyxl.Cell :=
  {| openpyxl.value := openpyxl.Text "N/A";
     openpyxl.font := Some App.missing_font;
     openpyxl.fill := Some App.missing_fill;
     openpyxl.border := Some App.thin_border;
     openpyxl.alignment := Some {| openpyxl.horizontal := "right" |};
     openpyxl.number_format := "General" |}.

(** The record without the line items the renderer has no row for. *)
Definition drop_unrecognized (r : FinancialRecord) : FinancialRecord :=
  {| company_name := company_name r;
     fiscal_years := fiscal_years r;
     financial_data :=
       filter (λ kv, kv.1 ∈ App.financial_items_list.*1) <$> financial_data r;
     currency := currency r;
     units := units r;
     notes := notes r |}.

Section RendererStages.
Import openpyxl App.

(** The sheet after the title, metadata and header statements. *)
Definition sheet_before_rows (r : FinancialRecord) : Worksheet :=
  let ws := set_title "Financial Data" (active new_workbook) in
  let ws := update_cell (1, 1)
              (set_value (Text ("Financial Statement - " +:+
                 default "Unknown Company" (company_name r)))) ws in
  let ws := update_cell (1, 1) (set_font (bold_font (Some 14))) ws in
  let ws := merge_cells ((1, 1), (1, 5)) ws in
  let ws := update_cell (2, 1)
              (set_value (Text ("Currency: " +:+ default "Unknown" (currency r)))) ws in
  let ws := update_cell (3, 1)
              (set_value (Text ("Units: " +:+ default "Actual" (units r)))) ws in
  let ws := update_cell (5, 1) (set_value (Text "Line Item")) ws in
  let ws := update_cell (5, 1) (set_fill header_fill) ws in
  let ws := update_cell (5, 1) (set_font header_font) ws in
  let ws := update_cell (5, 1) (set_border thin_border) ws in
  header_cells 2 (default [] (fiscal_years r)) ws.
End RendererStages.

(** The two error results of the model-assisted extractor. *)
Definition parse_failure {J} (result : option J * option string) : Prop :=
  ∃ e, result = (None, Some ("Failed to parse financial data: " +:+ e)).

Definition service_error {J} (result : option J * option string) : Prop :=
  ∃ e, result = (None, Some ("Claude API error: " +:+ e)).

(** ** The arguments of [float] *)

(** Every character of [s] satisfies [P]. *)
Fixpoint str_forall (P : ascii → bool) (s : string) : bool :=
  match s with
  | EmptyString => true
  | String c s' => P c && str_forall P s'
  end.

(** Every character [r] can consume satisfies [P] (without IGNORECASE). *)
Fixpoint consumes (P : ascii → bool) (r : regex) : Prop :=
  match r with
  | Eps | Bound => True
  | Chr c => P c = true
  | Cls f | Many f => ∀ c, f c = true → P c = true
  | Seq r1 r2 | Alt r1 r2 => consumes P r1 ∧ consumes P r2
  | Opt r1 => consumes P r1
  end.

(** The characters of a numeric token. *)
Definition number_char (c : ascii) : bool :=
  is_digit c || ascii_eqb c "," || ascii_eqb c ".".

Definition digit_or_dot (c : ascii) : bool := is_digit c || ascii_eqb c ".".

(** ** Strings *)

(** The concatenation of a list of strings. *)
Fixpoint str_concat (parts : list string) : string :=
  match parts with
  | [] => ""
  | part :: rest => part +:+ str_concat rest
  end.

(** [s] without its first [n] characters. *)
Fixpoint str_drop (n : nat) (s : string) : string :=
  match n, s with
  | S n', String _ s' => str_drop n' s'
  | _, _ => s
  end.

(** [s] ends with [suffix]. *)
Definition ends_with (suffix s : string) : Prop := ∃ pre, s = pre +:+ suffix.

(** A character that is not a newline. *)
Definition not_newline (c : ascii) : bool := negb (ascii_eqb c "010").

(** A character that is not a space. *)
Definition not_blank (c : ascii) : bool := negb (ascii_eqb c " ").

(** ** Inputs of the examples *)

Definition nl : string := String "010" EmptyString.

Definition two_variants : string :=
  "Revenue from operations 100" +:+ nl +:+ "Total revenue 200".

Definition revenue_scenario : string :=
  "FY 2024 2023" +:+ nl +:+ "Revenue from operations 1,000 900".

Definition comma_after_value : string :=
  "Total revenue 5" +:+ nl +:+ "Sales ,".

Definition revenue_2024_only : FinancialRecord :=
  {| company_name := Some "Unknown";
     fiscal_years := Some ["2024"; "2023"];
     financial_data := Some {[ "revenue" := {[ "2024" := 100 # 1 ]} ]};
     currency := Some "USD";
     units := Some "Actual";
     notes := Some [] |}.

Definition with_unknown_key : FinancialRecord :=
  {| company_name := Some "Unknown";
     fiscal_years := Some ["2024"];
     financial_data :=
       Some {[ "revenue" := {[ "2024" := 100 # 1 ]}; "ebitda" := {[ "2024" := 7 # 1 ]} ]};
     currency := Some "USD";
     units := Some "Actual";
     notes := Some [] |}.

Definition fifty_characters : string :=
  "Revenue from operations 1,000 900 for FY 2024 2023".

Definition fifty_upload : App.Upload :=
  {| App.has_file := true;
     App.filename := "report.txt";
     App.text_result := Ok (Some fifty_characters, None) |}.

Definition sample_files : Files.FileSystem :=
  {| Files.pdf_pages := λ _, Ok [Ok (Some "Revenue "); Ok None; Ok (Some "2024")];
     Files.read_text := λ _, Raise (Exc ValueError "invalid start byte");
     Files.docx_paragraphs := λ _, Ok ["Total revenue 200"; "Sales 7"] |}.

Definition long_document : string :=
  "ACME INDUSTRIES LIMITED annual report for the fiscal years 2024 2023" +:+ nl +:+
  "Revenue from operations 1,000 900" +:+ nl +:+
  "Net profit 120 95 after tax".

Definition long_upload : App.Upload :=
  {| App.has_file := true;
     App.filename := "report.txt";
     App.text_result := Ok (Some long_document, None) |}.

Definition padded_upload : App.Upload :=
  {| App.has_file := true;
     App.filename := "report.txt";
     App.text_result := Ok (Some ("   " +:+ fifty_characters +:+ nl), None) |}.

(** * Lemmas and theorems *)

Import App.

Lemma app_cons c s t : String c s +:+ t = String c (s +:+ t).
Proof. reflexivity. Qed.

Lemma app_empty_l t : EmptyString +:+ t = t.
Proof. reflexivity. Qed.

Lemma is_digit_word c : is_digit c = true → is_word c = true.
Proof. intros H. unfold is_word. by rewrite H. Qed.

Lemma ascii_eqb_true a b : ascii_eqb a b = true ↔ a = b.
Proof. unfold ascii_eqb. by rewrite bool_decide_eq_true. Qed.

Lemma match_here_year prev s :
  match_here false year_pattern prev s = year_at prev s.
Proof.
  unfold match_here, year_at.
  destruct s as [|a [|b [|d1 [|d2 rest]]]]; simpl;
    unfold chr_match, cls_match; simpl.
  - by destruct (xorb _ _).
  - destruct (xorb _ _); [|done]. by destruct (ascii_eqb _ _).
  - destruct (xorb _ _); [|done]. destruct (ascii_eqb "2" a); [|done].
    by destruct (ascii_eqb _ _).
  - destruct (xorb _ _); [|done]. destruct (ascii_eqb "2" a); [|done].
    destruct (ascii_eqb "0" b); [|done]. rewrite orb_false_r.
    by destruct (is_digit d1).
  - destruct (ascii_eqb "2" a) eqn:Ha; simpl.
    2:{ by destruct (xorb _ _). }
    apply ascii_eqb_true in Ha as <-.
    replace (is_word "2") with true by (by vm_compute).
    rewrite xorb_true_r.
    destruct (word_at prev); simpl; [by rewrite !andb_false_r|].
    destruct (ascii_eqb "0" b); simpl; [|done].
    rewrite !orb_false_r.
    destruct (is_digit d1); simpl; [|done].
    destruct (is_digit d2) eqn:Hd2; simpl; [|done].
    rewrite (is_digit_word _ Hd2), xorb_true_l.
    destruct (word_at (str_head rest)); simpl; [done|].
    replace (S (S (S (S (String.length rest)))) - String.length rest) with 4 by lia.
    done.
Qed.

Lemma year_at_Some prev s y :
  year_at prev s = Some y →
  ∃ d1 d2 rest, y = String "2" (String "0" (String d1 (String d2 EmptyString)))
    ∧ s = y +:+ rest ∧ is_digit d1 = true ∧ is_digit d2 = true
    ∧ word_at prev = false ∧ word_at (str_head rest) = false.
Proof.
  unfold year_at. destruct s as [|a [|b [|d1 [|d2 rest]]]]; try done.
  destruct (_ && _) eqn:H; [|done]. intros [= <-].
  repeat (apply andb_prop in H as [H ?]).
  apply ascii_eqb_true in H as <-.
  match goal with H : ascii_eqb "0" b = true |- _ => apply ascii_eqb_true in H as <- end.
  exists d1, d2, rest. repeat split; by try apply negb_true_iff.
Qed.

Lemma findall_year_sound s : ∀ prev skip y,
  y ∈ findall_from year_pattern prev s skip → year_occ y prev s.
Proof.
  induction s as [|c s IH]; intros prev [|n] y; simpl; rewrite ?match_here_year.
  - by rewrite elem_of_nil.
  - by rewrite elem_of_nil.
  - destruct (year_at prev (String c s)) as [m|] eqn:Hm.
    + rewrite elem_of_cons. intros [->|Hy]; [by constructor|].
      constructor 2. by eapply IH.
    + intros Hy. constructor 2. by eapply IH.
  - intros Hy. constructor 2. by eapply IH.
Qed.

Lemma findall_year_complete s : ∀ prev skip y,
  year_occ y prev s → skip_inv prev s skip →
  y ∈ findall_from year_pattern prev s skip.
Proof.
  induction s as [|c s IH]; intros prev skip y Hocc Hinv.
  - inversion Hocc as [? ? Hy|]; subst. done.
  - destruct skip as [|n]; simpl; rewrite ?match_here_year.
    + destruct (year_at prev (String c s)) as [m|] eqn:Hm.
      * inversion Hocc as [? ? Hy|? ? ? Hl]; subst.
        { rewrite Hm in Hy. injection Hy as ->. apply elem_of_cons; by left. }
        apply elem_of_cons; right. apply IH; [done|].
        apply year_at_Some in Hm as (d1 & d2 & rest & -> & Hs & Hd1 & Hd2 & _ & _).
        injection Hs as -> ->. simpl. repeat split; try done.
        by apply is_digit_word.
      * inversion Hocc as [? ? Hy|? ? ? Hl]; subst; [congruence|].
        by apply IH.
    + destruct Hinv as [Hprev Hpre].
      inversion Hocc as [? ? Hy|? ? ? Hl]; subst.
      { apply year_at_Some in Hy as (_ & _ & _ & _ & _ & _ & _ & Hp & _). congruence. }
      apply IH; [done|]. destruct n as [|n]; [done|]. simpl in Hpre. by destruct Hpre.
Qed.

Lemma year_occ_delimited y s : ∀ prev,
  year_occ y prev s ↔
  is_year_token y ∧ ∃ pre post, s = pre +:+ y +:+ post
    ∧ word_at (str_last prev pre) = false ∧ word_at (str_head post) = false.
Proof.
  intros prev; split.
  - induction 1 as [prev s Hy|prev c s _ [Htok (pre & post & -> & Hl & Hr)]].
    + apply year_at_Some in Hy as (d1 & d2 & rest & -> & -> & Hd1 & Hd2 & Hp & Hr).
      split; [by exists d1, d2|]. by exists EmptyString, rest.
    + split; [done|]. by exists (String c pre), post.
  - intros [(d1 & d2 & -> & Hd1 & Hd2) (pre & post & -> & Hl & Hr)].
    revert prev Hl. induction pre as [|c pre IH]; intros prev Hl.
    + constructor. simpl in *. unfold year_at.
      change (EmptyString +:+ ?x) with x.
      change (String ?a ?x +:+ ?y) with (String a (x +:+ y)).
      change (String ?a ?x +:+ ?y) with (String a (x +:+ y)).
      simpl. rewrite Hd1, Hd2, Hl, Hr. done.
    + constructor 2. by apply IH.
Qed.

Lemma findall_year_spec text y :
  y ∈ re_findall year_pattern text ↔ is_year_token y ∧ occurs_delimited y text.
Proof.
  unfold re_findall, occurs_delimited. rewrite <- year_occ_delimited. split.
  - apply findall_year_sound.
  - intros H. by apply findall_year_complete.
Qed.


Lemma compare_refl s : String.compare s s = Eq.
Proof.
  induction s as [|c s IH]; simpl; [done|].
  unfold Ascii.compare. by rewrite N.compare_refl.
Qed.

Lemma str_gt_iff a b : str_gt a b ↔ String.le b a ∧ a ≠ b.
Proof.
  unfold str_gt, String.le, String.ltb, String.leb.
  destruct (String.compare b a) eqn:Hc; simpl.
  - apply String.compare_eq_iff in Hc as ->. split; [done|]. by intros [_ ?].
  - split; [|done]. intros _. split; [done|]. intros ->.
    by rewrite compare_refl in Hc.
  - split; [done|]. by intros [? _].
Qed.

#[local] Instance flip_le_total : Total (flip String.le).
Proof. intros a b. destruct (total String.le a b); auto. Qed.

#[local] Instance flip_le_trans : Transitive (flip String.le).
Proof. intros a b c ??. unfold flip in *. by etrans. Qed.

Lemma StronglySorted_strict (l : list string) :
  StronglySorted (flip String.le) l → NoDup l → StronglySorted str_gt l.
Proof.
  induction 1 as [|x l Hl IH Hx]; intros Hnd; [constructor|].
  apply NoDup_cons in Hnd as [Hnot Hnd].
  constructor; [by apply IH|].
  apply Forall_forall. intros y Hy. apply str_gt_iff. split.
  - rewrite Forall_forall in Hx. by apply Hx.
  - intros ->. by apply Hnot.
Qed.

Lemma StronglySorted_take {A} (R : relation A) n (l : list A) :
  StronglySorted R l → StronglySorted R (take n l).
Proof.
  intros H. rewrite <- (take_drop n l) in H. by apply StronglySorted_app_1_l in H.
Qed.

Lemma str_gt_irrefl a : ¬ str_gt a a.
Proof. rewrite str_gt_iff. by intros [_ ?]. Qed.

Lemma StronglySorted_NoDup (l : list string) :
  StronglySorted str_gt l → NoDup l.
Proof.
  induction 1 as [|x l Hl IH Hx]; constructor; [|done].
  intros Hin. rewrite Forall_forall in Hx. by apply (str_gt_irrefl x), Hx.
Qed.

Lemma find_years_sorted text : StronglySorted str_gt (find_years text).
Proof.
  unfold find_years. apply StronglySorted_strict.
  - apply StronglySorted_merge_sort; apply _.
  - rewrite merge_sort_Permutation. apply NoDup_elements.
Qed.

Lemma find_years_elem text y :
  y ∈ find_years text ↔ y ∈ re_findall year_pattern text.
Proof.
  unfold find_years. rewrite merge_sort_Permutation, elem_of_elements.
  apply elem_of_list_to_set.
Qed.

Lemma occurs_delimited_occurs y text : occurs_delimited y text → occurs y text.
Proof. intros (pre & post & -> & _). by exists pre, post. Qed.

(** C3 (amended). For every text, the fiscal years of the heuristic
    extractor are the first three entries of the strictly descending list,
    without duplicates, of the tokens [20dd] that occur in the text between
    two word boundaries (the matches of [\b(20\d{2})\b]), or of
    ["2024"; "2023"] when there is no such token. The list has at most three
    entries, is strictly descending and has no duplicates; it is exactly
    ["2024"; "2023"] when no delimited token occurs, in particular when the
    text has no substring [20dd] at all. *)
Theorem fiscal_years_spec (text : string) :
  let ys := fiscal_years_of text in
  length ys ≤ 3
  ∧ StronglySorted str_gt ys
  ∧ NoDup ys
  ∧ (∃ found, StronglySorted str_gt found
       ∧ (∀ y, y ∈ found ↔ is_year_token y ∧ occurs_delimited y text)
       ∧ ys = take 3 (if found is [] then ["2024"; "2023"] else found))
  ∧ ((∀ y, is_year_token y → ¬ occurs_delimited y text) → ys = ["2024"; "2023"])
  ∧ ((∀ y, is_year_token y → ¬ occurs y text) → ys = ["2024"; "2023"]).
Proof.
  assert (Hsorted : StronglySorted str_gt (fiscal_years_of text)).
  { unfold fiscal_years_of. apply StronglySorted_take.
    pose proof (find_years_sorted text) as H.
    destruct (find_years text); [|done].
    repeat constructor. }
  assert (Hnone : (∀ y, is_year_token y → ¬ occurs_delimited y text) →
                  fiscal_years_of text = ["2024"; "2023"]).
  { intros H. unfold fiscal_years_of.
    destruct (find_years text) as [|y l] eqn:Hy; [done|].
    assert (y ∈ find_years text) as Hin by (rewrite Hy; left).
    apply find_years_elem, findall_year_spec in Hin as [? ?]. naive_solver. }
  simpl. split_and!; try done.
  - unfold fiscal_years_of. rewrite length_take. lia.
  - by apply StronglySorted_NoDup.
  - exists (find_years text). split_and!; [apply find_years_sorted| |done].
    intros y. by rewrite find_years_elem, findall_year_spec.
  - intros H. apply Hnone. intros y Hy Hocc. by eapply H, occurs_delimited_occurs.
Qed.

(** The token of "FY2025" is a substring matching [20\d\d] but is not
    between word boundaries: the extractor falls back to the default. *)
Lemma fiscal_years_not_all_substrings :
  fiscal_years_of "FY2025" ≠ spec_fiscal_years "FY2025".
Proof. vm_compute. discriminate. Qed.

Lemma step_value_run numbers j year d :
  assign_if_present j year numbers d = Ok (step_value numbers j year d).
Proof.
  unfold assign_if_present, step_value, value_at, getitem, store_value, token_value.
  destruct (j <? length numbers) eqn:Hj.
  - apply Nat.ltb_lt, lookup_lt_is_Some in Hj as [tok ->]. simpl.
    by destruct (py_float _).
  - apply Nat.ltb_ge, lookup_ge_None in Hj as ->. done.
Qed.

Lemma assign_years_spec years numbers : ∀ j d,
  ∃ d', assign_years j years numbers d = Ok d'
    ∧ (∀ y, y ∉ years → d' !! y = d !! y)
    ∧ (NoDup years → ∀ i y, years !! i = Some y →
         d' !! y = match value_at numbers (j + i) with
                   | Some v => Some v
                   | None => d !! y
                   end).
Proof.
  induction years as [|year rest IH]; intros j d; simpl.
  - exists d. by split_and!.
  - rewrite step_value_run. simpl.
    destruct (IH (S j) (step_value numbers j year d)) as (d' & -> & Hout & Hin).
    exists d'. split_and!; [done| |].
    + intros y [Hne Hy]%not_elem_of_cons. rewrite Hout by done.
      unfold step_value. destruct (value_at numbers j); [|done].
      by rewrite lookup_insert_ne.
    + intros [Hnot Hnd]%NoDup_cons [|i] y Hy; simpl in Hy.
      * injection Hy as ->. rewrite Hout by done. rewrite Nat.add_0_r.
        unfold step_value. destruct (value_at numbers j); [|done].
        by rewrite lookup_insert_eq.
      * rewrite (Hin Hnd i y Hy). replace (S j + i) with (j + S i) by lia.
        destruct (value_at numbers (j + S i)); [done|].
        unfold step_value. destruct (value_at numbers j); [|done].
        rewrite lookup_insert_ne; [done|]. intros ->.
        apply Hnot. by eapply list_elem_of_lookup_2.
Qed.

Lemma hit_line_nil pattern : hit_line pattern [] = None.
Proof. done. Qed.

Lemma hit_line_cons pattern line rest :
  hit_line pattern (line :: rest) =
  if usable pattern line then Some line else hit_line pattern rest.
Proof. done. Qed.

Lemma scan_lines_spec pattern years lines d :
  scan_lines pattern years lines d =
  match hit_line pattern lines with
  | Some line => assign_years 0 years (re_findall number_pattern line) d
  | None => Ok d
  end.
Proof.
  induction lines as [|line rest IH]; [done|].
  rewrite hit_line_cons. simpl. unfold usable.
  destruct (matches pattern line); simpl; [|done].
  destruct (re_findall number_pattern line) eqn:Hn; simpl; [done|].
  by rewrite Hn.
Qed.

Lemma scan_patterns_spec years lines patterns : ∀ d,
  ∃ d', scan_patterns patterns years lines d = Ok d'
    ∧ (∀ y, y ∉ years → d' !! y = d !! y)
    ∧ (NoDup years → ∀ i y, years !! i = Some y →
         d' !! y = last_value patterns lines i (d !! y)).
Proof.
  induction patterns as [|p rest IH]; intros d; simpl.
  - exists d. by split_and!.
  - rewrite scan_lines_spec. unfold last_value. simpl. unfold pattern_value at 2.
    destruct (hit_line p lines) as [line|]; simpl.
    + destruct (assign_years_spec years (re_findall number_pattern line) 0 d)
        as (d1 & -> & Hout1 & Hin1). simpl.
      destruct (IH d1) as (d' & -> & Hout & Hin).
      exists d'. split_and!; [done| |].
      * intros y Hy. by rewrite Hout, Hout1.
      * intros Hnd i y Hy. rewrite (Hin Hnd i y Hy), (Hin1 Hnd i y Hy). done.
    + destruct (IH d) as (d' & -> & Hout & Hin). exists d'. by split_and!.
Qed.


Lemma fiscal_years_sorted text : StronglySorted str_gt (fiscal_years_of text).
Proof.
  unfold fiscal_years_of. apply StronglySorted_take.
  pose proof (find_years_sorted text) as H.
  destruct (find_years text); [|done].
  repeat constructor.
Qed.

Lemma fiscal_years_NoDup text : NoDup (fiscal_years_of text).
Proof. apply StronglySorted_NoDup, fiscal_years_sorted. Qed.

Lemma line_items_keys_NoDup : NoDup (line_items.*1).
Proof. apply (bool_decide_unpack _). by vm_compute. Qed.

Lemma scan_items_spec years lines items : ∀ fd,
  ∃ fd', scan_items items years lines fd = Ok fd'
    ∧ (∀ k, k ∉ items.*1 → fd' !! k = fd !! k)
    ∧ (NoDup (items.*1) → ∀ key patterns, (key, patterns) ∈ items →
         ∃ d, scan_patterns patterns years lines ∅ = Ok d ∧ fd' !! key = Some d).
Proof.
  induction items as [|[k ps] rest IH]; intros fd; simpl.
  - exists fd. split_and!; [done..|]. intros _ ?? []%elem_of_nil.
  - destruct (scan_patterns_spec years lines ps ∅) as (d & Hd & _). rewrite Hd. simpl.
    destruct (IH (<[k:=d]> fd)) as (fd' & -> & Hout & Hin).
    exists fd'. split_and!; [done| |].
    + intros k' [Hne Hk']%not_elem_of_cons. rewrite Hout by done.
      by rewrite lookup_insert_ne.
    + intros [Hnot Hnd]%NoDup_cons key patterns [ [= -> ->] | Hel]%elem_of_cons.
      * exists d. split; [done|]. rewrite Hout by done. by rewrite lookup_insert_eq.
      * by apply Hin.
Qed.

Lemma remove_empty_lookup fd key :
  remove_empty fd !! key =
  match fd !! key with
  | Some d => if decide (d = ∅) then None else Some d
  | None => None
  end.
Proof.
  unfold remove_empty. destruct (fd !! key) as [d|] eqn:Hk.
  - destruct (decide (d = ∅)) as [->|Hne].
    + apply map_lookup_filter_None. right. intros d' Hd'. simpl. naive_solver.
    + apply map_lookup_filter_Some. done.
  - apply map_lookup_filter_None. by left.
Qed.

Lemma extract_ok text :
  ∃ fd, scan_items line_items (fiscal_years_of text) (lines_of text) ∅ = Ok fd
    ∧ ∃ r, extract_financial_data_with_patterns text = (Some r, None)
        ∧ fiscal_years r = Some (fiscal_years_of text)
        ∧ financial_data r = Some (remove_empty fd).
Proof.
  destruct (scan_items_spec (fiscal_years_of text) (lines_of text) line_items ∅)
    as (fd & Hfd & _).
  exists fd. split; [done|].
  unfold extract_financial_data_with_patterns, extract_body.
  unfold lines_of in Hfd. rewrite Hfd. simpl. eauto.
Qed.

Lemma item_dict_reported text key patterns :
  (key, patterns) ∈ line_items →
  ∃ d, item_dict patterns text = Ok d ∧ ∀ year, reported text key year = d !! year.
Proof.
  intros Hel. unfold reported, item_dict.
  destruct (extract_ok text) as (fd & Hfd & r & -> & _ & ->).
  destruct (scan_items_spec (fiscal_years_of text) (lines_of text) line_items ∅)
    as (fd' & Hfd' & _ & Hin).
  rewrite Hfd in Hfd'. injection Hfd' as <-.
  destruct (Hin line_items_keys_NoDup key patterns Hel) as (d & Hd & Hk).
  exists d. split; [done|]. intros year. unfold lookup2.
  rewrite remove_empty_lookup, Hk.
  destruct (decide (d = ∅)) as [->|]; [by rewrite lookup_empty|done].
Qed.

Lemma reported_last_value text key patterns i year :
  (key, patterns) ∈ line_items →
  fiscal_years_of text !! i = Some year →
  reported text key year = last_value patterns (lines_of text) i None.
Proof.
  intros Hel Hy.
  destruct (item_dict_reported text key patterns Hel) as (d & Hd & ->).
  unfold item_dict in Hd.
  destruct (scan_patterns_spec (fiscal_years_of text) (lines_of text) patterns ∅)
    as (d' & Hd' & _ & Hin).
  rewrite Hd in Hd'. injection Hd' as <-.
  rewrite (Hin (fiscal_years_NoDup text) i year Hy). by rewrite lookup_empty.
Qed.

Lemma reported_other_year text key patterns year :
  (key, patterns) ∈ line_items →
  year ∉ fiscal_years_of text →
  reported text key year = None.
Proof.
  intros Hel Hy.
  destruct (item_dict_reported text key patterns Hel) as (d & Hd & ->).
  unfold item_dict in Hd.
  destruct (scan_patterns_spec (fiscal_years_of text) (lines_of text) patterns ∅)
    as (d' & Hd' & Hout & _).
  rewrite Hd in Hd'. injection Hd' as <-.
  by rewrite Hout, lookup_empty.
Qed.

Lemma last_value_app ps qs lines i acc :
  last_value (ps ++ qs) lines i acc = last_value qs lines i (last_value ps lines i acc).
Proof. unfold last_value. by rewrite foldl_app. Qed.

Lemma last_value_none qs lines i acc :
  (∀ q, q ∈ qs → pattern_value q lines i = None) → last_value qs lines i acc = acc.
Proof.
  revert acc. induction qs as [|q qs IH]; intros acc H; [done|].
  unfold last_value in *. simpl. rewrite (H q) by left.
  apply IH. intros q' Hq'. apply H. by right.
Qed.

Lemma last_value_Some patterns lines i v :
  last_value patterns lines i None = Some v ↔
  ∃ before p after, patterns = before ++ p :: after
    ∧ pattern_value p lines i = Some v
    ∧ ∀ q, q ∈ after → pattern_value q lines i = None.
Proof.
  split.
  - induction patterns as [|p ps IH] using rev_ind; [done|].
    rewrite last_value_app. unfold last_value at 1. simpl.
    destruct (pattern_value p lines i) as [w|] eqn:Hp.
    + intros [= ->]. exists ps, p, []. split_and!; [done..|]. intros ? []%elem_of_nil.
    + intros (before & q & after & -> & Hq & Hafter)%IH.
      exists before, q, (after ++ [p]). split_and!.
      * by rewrite <- app_assoc.
      * done.
      * intros q' [?|Hq'%list_elem_of_singleton]%elem_of_app; [auto|by subst].
  - intros (before & p & after & -> & Hp & Hafter).
    rewrite last_value_app. change (p :: after) with ([p] ++ after).
    rewrite last_value_app, last_value_none by done.
    unfold last_value at 1. simpl. by rewrite Hp.
Qed.

Lemma hit_line_first pattern lines line :
  hit_line pattern lines = Some line ↔
  ∃ before after, lines = before ++ line :: after
    ∧ usable pattern line = true
    ∧ ∀ l, l ∈ before → usable pattern l = false.
Proof.
  split.
  - induction lines as [|l rest IH]; [done|]. simpl.
    destruct (usable pattern l) eqn:Hl.
    + intros [= ->]. exists [], rest. split_and!; [done..|]. intros ? []%elem_of_nil.
    + intros (before & after & -> & Hu & Hb)%IH.
      exists (l :: before), after. split_and!; [done..|].
      intros l' [->|?]%elem_of_cons; auto.
  - intros (before & after & -> & Hu & Hb).
    induction before as [|l before IH]; simpl.
    + by rewrite Hu.
    + rewrite (Hb l) by left. apply IH. intros l' Hl'. apply Hb. by right.
Qed.


Lemma pattern_value_Some p lines i v :
  pattern_value p lines i = Some v ↔
  ∃ line tok, hit_line p lines = Some line
    ∧ re_findall number_pattern line !! i = Some tok
    ∧ token_value tok = Some v.
Proof.
  unfold pattern_value, value_at. split.
  - destruct (hit_line p lines) as [line|]; simpl; [|done].
    destruct (re_findall number_pattern line !! i) as [tok|] eqn:Htok; simpl; [|done].
    intros Hv. by exists line, tok.
  - intros (line & tok & -> & Htok & Hv). simpl. by rewrite Htok.
Qed.

(** C1 (amended). For every text and every line item: the scan of one
    label pattern stops at the first line that matches the pattern and has
    at least one numeric token, and only that line is read for the pattern;
    every pattern of the item is scanned, in the fixed order. The value
    reported for the year at position [i] is the [i]-th token of the line
    of the last pattern, in that order, whose line has a convertible token
    at position [i]; years outside the fiscal years get no value. *)
Theorem every_variant_is_scanned (text key : string) (patterns : list regex) :
  (key, patterns) ∈ line_items →
  (∀ p d,
     scan_lines p (fiscal_years_of text) (lines_of text) d =
     match hit_line p (lines_of text) with
     | Some line => assign_years 0 (fiscal_years_of text) (re_findall number_pattern line) d
     | None => Ok d
     end)
  ∧ (∀ p line,
       hit_line p (lines_of text) = Some line ↔
       ∃ before after, lines_of text = before ++ line :: after
         ∧ usable p line = true ∧ ∀ l, l ∈ before → usable p l = false)
  ∧ (∀ i year v, fiscal_years_of text !! i = Some year →
       (reported text key year = Some v ↔
        ∃ before p after line tok, patterns = before ++ p :: after
          ∧ hit_line p (lines_of text) = Some line
          ∧ re_findall number_pattern line !! i = Some tok
          ∧ token_value tok = Some v
          ∧ ∀ q, q ∈ after → pattern_value q (lines_of text) i = None))
  ∧ (∀ year, year ∉ fiscal_years_of text → reported text key year = None).
Proof.
  intros Hel. split_and!.
  - intros p d. apply scan_lines_spec.
  - intros p line. apply hit_line_first.
  - intros i year v Hy. rewrite (reported_last_value text key patterns i year Hel Hy).
    rewrite last_value_Some. split.
    + intros (before & p & after & -> & (line & tok & ? & ? & ?)%pattern_value_Some & ?).
      by exists before, p, after, line, tok.
    + intros (before & p & after & line & tok & -> & ? & ? & ? & ?).
      exists before, p, after. split_and!; [done| |done].
      apply pattern_value_Some. by exists line, tok.
  - intros year. by apply (reported_other_year text key patterns).
Qed.


Lemma every_variant_is_scanned_witness :
  (∃ patterns, ("revenue", patterns) ∈ line_items)
  ∧ ("2022" ∉ fiscal_years_of two_variants)
  ∧ reported two_variants "revenue" "2022" = None.
Proof.
  split; [eexists; left|].
  assert ("2022" ∉ fiscal_years_of two_variants) as Hyear.
  { apply (bool_decide_unpack _). vm_compute. exact I. }
  split; [exact Hyear|].
  refine (proj2 (proj2 (proj2 (every_variant_is_scanned two_variants "revenue" _ _)))
            "2022" Hyear).
  left.
Defined.

(** The second variant of revenue is scanned after the first one has
    found its line, and its value replaces the first one's. *)
Lemma later_variant_overrides :
  ∃ patterns, ("revenue", patterns) ∈ line_items
    ∧ fiscal_years_of two_variants !! 0 = Some "2024"
    ∧ spec_item_value patterns (lines_of two_variants) 0 = Some (100 # 1)
    ∧ reported two_variants "revenue" "2024" = Some (200 # 1).
Proof. eexists. split; [left|]. by vm_compute. Qed.


(** C2. For every text, the numbers of the line a pattern stops at are
    assigned to the fiscal years by list position only: after the scan, the
    year at position [i] holds the value of the [i]-th token when that token
    converts, and what it held before otherwise; no other key changes. In
    particular the document made of the lines "FY 2024 2023" and "Revenue
    from operations 1,000 900" gives revenue 1000 for 2024 and 900 for
    2023. *)
Theorem numbers_assigned_by_position :
  (∀ (text : string) (p : regex) (line : string) (d : gmap string Q),
     hit_line p (lines_of text) = Some line →
     ∃ d', scan_lines p (fiscal_years_of text) (lines_of text) d = Ok d'
       ∧ (∀ i year, fiscal_years_of text !! i = Some year →
            d' !! year = match value_at (re_findall number_pattern line) i with
                         | Some v => Some v
                         | None => d !! year
                         end)
       ∧ (∀ year, year ∉ fiscal_years_of text → d' !! year = d !! year))
  ∧ (∃ r fd, extract_financial_data_with_patterns revenue_scenario = (Some r, None)
       ∧ fiscal_years r = Some ["2024"; "2023"]
       ∧ financial_data r = Some fd
       ∧ fd !! "revenue" = Some ({[ "2024" := 1000 # 1; "2023" := 900 # 1 ]} : gmap string Q)).
Proof.
  split.
  - intros text p line d Hhit. rewrite scan_lines_spec, Hhit.
    destruct (assign_years_spec (fiscal_years_of text)
                (re_findall number_pattern line) 0 d) as (d' & -> & Hout & Hin).
    exists d'. split_and!; [done| |done].
    intros i year Hy. apply (Hin (fiscal_years_NoDup text) i year Hy).
  - destruct (extract_ok revenue_scenario) as (fd & Hfd & r & Hr & Hys & Hdata).
    exists r, (remove_empty fd). split_and!; [done| | done |].
    + rewrite Hys. by vm_compute.
    + vm_compute in Hfd. injection Hfd as <-. by vm_compute.
Qed.

Lemma numbers_assigned_by_position_witness :
  hit_line (Lit "sales") (lines_of "Sales 7 , 9") = Some "Sales 7 , 9"
  ∧ ∃ d', scan_lines (Lit "sales") (fiscal_years_of "Sales 7 , 9")
            (lines_of "Sales 7 , 9") ∅ = Ok d'
       ∧ (∀ i year, fiscal_years_of "Sales 7 , 9" !! i = Some year →
            d' !! year = match value_at (re_findall number_pattern "Sales 7 , 9") i with
                         | Some v => Some v
                         | None => (∅ : gmap string Q) !! year
                         end)
       ∧ (∀ year, year ∉ fiscal_years_of "Sales 7 , 9" → d' !! year = (∅ : gmap string Q) !! year).
Proof.
  split; [reflexivity|].
  apply (proj1 numbers_assigned_by_position "Sales 7 , 9" (Lit "sales") "Sales 7 , 9" ∅).
  reflexivity.
Defined.

(** C4. For every text the extractor returns a record whose
    [financial_data] has, under every key it contains, a mapping with at
    least one year and value. A line item whose scan assigned no value is
    absent from it, one whose scan assigned some value is present with
    exactly those values, and no other key is present. *)
Theorem reported_items_are_nonempty (text : string) :
  ∃ r fd, extract_financial_data_with_patterns text = (Some r, None)
    ∧ financial_data r = Some fd
    ∧ (∀ key d, fd !! key = Some d → d ≠ ∅ ∧ ∃ year v, d !! year = Some v)
    ∧ (∀ key patterns, (key, patterns) ∈ line_items →
         ∃ d, item_dict patterns text = Ok d
           ∧ fd !! key = if decide (d = ∅) then None else Some d)
    ∧ (∀ key, key ∉ line_items.*1 → fd !! key = None).
Proof.
  destruct (extract_ok text) as (fd & Hfd & r & Hr & _ & Hdata).
  exists r, (remove_empty fd). split_and!; [done..| | |].
  - intros key d. rewrite remove_empty_lookup.
    destruct (fd !! key) as [d0|]; [|done].
    destruct (decide (d0 = ∅)); [done|]. intros [= <-]. split; [done|].
    destruct (map_choose d0) as (year & v & Hv); [done|]. by exists year, v.
  - intros key patterns Hel.
    destruct (scan_items_spec (fiscal_years_of text) (lines_of text) line_items ∅)
      as (fd' & Hfd' & _ & Hin).
    rewrite Hfd in Hfd'. injection Hfd' as <-.
    destruct (Hin line_items_keys_NoDup key patterns Hel) as (d & Hd & Hk).
    exists d. split; [done|]. by rewrite remove_empty_lookup, Hk.
  - intros key Hkey.
    destruct (scan_items_spec (fiscal_years_of text) (lines_of text) line_items ∅)
      as (fd' & Hfd' & Hout & _).
    rewrite Hfd in Hfd'. injection Hfd' as <-.
    by rewrite remove_empty_lookup, (Hout key Hkey), lookup_empty.
Qed.

Lemma str_app_assoc (a b c : string) : (a +:+ b) +:+ c = a +:+ (b +:+ c).
Proof.
  induction a as [|x a IH]; [done|].
  change (String x ((a +:+ b) +:+ c) = String x (a +:+ (b +:+ c))). by rewrite IH.
Qed.

Lemma str_app_length (a b : string) :
  String.length (a +:+ b) = String.length a + String.length b.
Proof.
  induction a as [|x a IH]; [done|].
  change (S (String.length (a +:+ b)) = S (String.length a + String.length b)).
  by rewrite IH.
Qed.

Lemma str_take_app (a b : string) : str_take (String.length a) (a +:+ b) = a.
Proof.
  induction a as [|x a IH]; [by destruct b|].
  change (String x (str_take (String.length a) (a +:+ b)) = String x a). by rewrite IH.
Qed.

Lemma str_forall_app P (a b : string) :
  str_forall P (a +:+ b) = str_forall P a && str_forall P b.
Proof.
  induction a as [|x a IH]; [done|].
  change (P x && str_forall P (a +:+ b) = P x && str_forall P a && str_forall P b).
  by rewrite IH, andb_assoc.
Qed.

Lemma cls_match_plain f c : cls_match false f c = f c.
Proof. unfold cls_match. simpl. apply orb_false_r. Qed.

Section Consumed.
Context {A : Type} (P : ascii → bool).

Lemma many_consumes f : (∀ c, f c = true → P c = true) →
  ∀ s prev (k : option ascii → string → option A) a,
    many false f prev s k = Some a →
    ∃ m s' prev', s = m +:+ s' ∧ str_forall P m = true ∧ k prev' s' = Some a.
Proof.
  intros Hf. induction s as [|c s IH]; intros prev k a; simpl.
  - intros Hk. by exists EmptyString, EmptyString, prev.
  - rewrite cls_match_plain. destruct (f c) eqn:Hc.
    + destruct (many false f (Some c) s k) as [a'|] eqn:Hm.
      * intros [= ->]. destruct (IH _ _ _ Hm) as (m & s' & prev' & -> & Hall & Hk).
        exists (String c m), s', prev'. split_and!; [done| |done].
        simpl. by rewrite (Hf c Hc).
      * intros Hk. by exists EmptyString, (String c s), prev.
    + intros Hk. by exists EmptyString, (String c s), prev.
Qed.

Lemma rmatch_consumes r : consumes P r →
  ∀ prev s (k : option ascii → string → option A) a,
    rmatch false r prev s k = Some a →
    ∃ m s' prev', s = m +:+ s' ∧ str_forall P m = true ∧ k prev' s' = Some a.
Proof.
  induction r as [|c|f|r1 IH1 r2 IH2|r1 IH1 r2 IH2|r1 IH1|f|]; simpl;
    intros Hr prev s k a.
  - intros Hk. by exists EmptyString, s, prev.
  - destruct s as [|x s]; [done|]. unfold chr_match.
    destruct (ascii_eqb c x) eqn:Hx; [|done].
    apply bool_decide_eq_true in Hx as <-. intros Hk.
    exists (String c EmptyString), s, (Some c). split_and!; [done| |done].
    simpl. by rewrite Hr.
  - destruct s as [|x s]; [done|]. rewrite cls_match_plain.
    destruct (f x) eqn:Hx; [|done]. intros Hk.
    exists (String x EmptyString), s, (Some x). split_and!; [done| |done].
    simpl. by rewrite (Hr x Hx).
  - destruct Hr as [H1 H2]. intros Hm.
    destruct (IH1 H1 _ _ _ _ Hm) as (m1 & s1 & p1 & -> & Hall1 & Hm2).
    destruct (IH2 H2 _ _ _ _ Hm2) as (m2 & s2 & p2 & -> & Hall2 & Hk).
    exists (m1 +:+ m2), s2, p2. split_and!; [|by rewrite str_forall_app, Hall1|done].
    by rewrite str_app_assoc.
  - destruct Hr as [H1 H2].
    destruct (rmatch false r1 prev s k) as [a'|] eqn:Hm1.
    + intros [= ->]. by apply (IH1 H1 _ _ _ _ Hm1).
    + by apply IH2.
  - destruct (rmatch false r1 prev s k) as [a'|] eqn:Hm1.
    + intros [= ->]. by apply (IH1 Hr _ _ _ _ Hm1).
    + intros Hk. by exists EmptyString, s, prev.
  - by apply many_consumes.
  - destruct (xorb _ _); [|done]. intros Hk. by exists EmptyString, s, prev.
Qed.
End Consumed.

Lemma match_here_consumes P r prev s m :
  consumes P r → match_here false r prev s = Some m → str_forall P m = true.
Proof.
  intros Hr. unfold match_here.
  destruct (rmatch false r prev s _) as [rest|] eqn:Hm; [|done]. intros [= <-].
  destruct (rmatch_consumes P r Hr _ _ _ _ Hm) as (m & s' & _ & -> & Hall & [= <-]).
  rewrite str_app_length.
  replace (String.length m + String.length s' - String.length s')
    with (String.length m) by lia.
  by rewrite str_take_app.
Qed.

Lemma findall_consumes P r : consumes P r →
  ∀ s prev skip tok, tok ∈ findall_from r prev s skip → str_forall P tok = true.
Proof.
  intros Hr. induction s as [|c s IH]; intros prev [|n] tok; simpl.
  - destruct (match_here false r prev EmptyString) as [m|] eqn:Hm.
    + intros ->%list_elem_of_singleton. by eapply match_here_consumes.
    + by intros ?%elem_of_nil.
  - by intros ?%elem_of_nil.
  - destruct (match_here false r prev (String c s)) as [m|] eqn:Hm.
    + intros [->|Hin]%elem_of_cons; [by eapply match_here_consumes|]. by eapply IH.
    + apply IH.
  - apply IH.
Qed.

Lemma number_pattern_consumes : consumes number_char number_pattern.
Proof.
  unfold number_char. simpl. split_and!.
  - intros c ->. done.
  - intros c ->. done.
  - reflexivity.
  - intros c ->. done.
Qed.

Lemma replace_commas_chars tok :
  str_forall number_char tok = true →
  str_forall digit_or_dot (replace_char "," "" tok) = true.
Proof.
  induction tok as [|c tok IH]; [done|]. simpl.
  intros [Hc Htok]%andb_prop. unfold ascii_eqb in *.
  destruct (bool_decide (c = ","%char)) eqn:Hcomma.
  - by apply IH.
  - simpl. rewrite (IH Htok), andb_true_r.
    unfold number_char, digit_or_dot, ascii_eqb in *. by rewrite Hcomma, orb_false_r in Hc.
Qed.

(** What the extractor passes to [float]: digits and dots only. *)
Lemma float_arguments line tok :
  tok ∈ re_findall number_pattern line →
  str_forall digit_or_dot (replace_char "," "" tok) = true.
Proof.
  intros Hin. apply replace_commas_chars.
  by apply (findall_consumes _ _ number_pattern_consumes _ _ _ _ Hin).
Qed.

(** C10 (amended). For every text the heuristic extractor returns a
    record and no error. The conversion of a token is guarded: the guarded
    assignment never raises, stores the value when the token converts and
    leaves the mapping as it was otherwise, so the year keeps the value an
    earlier pattern gave it, or stays absent. A bare comma is such a token:
    [float] raises on it. *)
Theorem heuristic_extractor_never_fails :
  (∀ text, ∃ r, extract_financial_data_with_patterns text = (Some r, None))
  ∧ (∀ text msg, extract_financial_data_with_patterns text ≠ (None, Some msg))
  ∧ (∀ j year numbers d,
       assign_if_present j year numbers d =
       Ok (match value_at numbers j with
           | Some v => <[year := v]> d
           | None => d
           end))
  ∧ py_float (replace_char "," "" ",") = Raise (float_error "")
  ∧ token_value "," = None.
Proof.
  split_and!.
  - intros text. destruct (extract_ok text) as (_ & _ & r & Hr & _). by exists r.
  - intros text msg. destruct (extract_ok text) as (_ & _ & r & -> & _). done.
  - intros j year numbers d. apply step_value_run.
  - reflexivity.
  - reflexivity.
Qed.


(** The comma of the "Sales" line fails to convert for 2024, and 2024
    still has the value of the "Total revenue" line. *)
Lemma failing_token_keeps_earlier_value :
  (∃ patterns, ("revenue", patterns) ∈ line_items ∧ Lit "sales" ∈ patterns)
  ∧ hit_line (Lit "sales") (lines_of comma_after_value) = Some "Sales ,"
  ∧ re_findall number_pattern "Sales ," !! 0 = Some ","
  ∧ token_value "," = None
  ∧ fiscal_years_of comma_after_value !! 0 = Some "2024"
  ∧ reported comma_after_value "revenue" "2024" = Some (5 # 1).
Proof.
  split.
  - eexists. split; [left|]. right. right. left.
  - by vm_compute.
Qed.

Section Sheet.
Import openpyxl.

Lemma cells_update_eq pos f ws :
  cells (update_cell pos f ws) !! pos = Some (f (cell_at pos ws)).
Proof. apply lookup_insert_eq. Qed.

Lemma cells_update_ne pos pos' f ws :
  pos ≠ pos' → cells (update_cell pos f ws) !! pos' = cells ws !! pos'.
Proof. intros. by apply lookup_insert_ne. Qed.

Lemma cell_at_update_ne pos pos' f ws :
  pos ≠ pos' → cell_at pos' (update_cell pos f ws) = cell_at pos' ws.
Proof. intros. unfold cell_at. by rewrite cells_update_ne. Qed.

Lemma cell_at_update_eq pos f ws :
  cell_at pos (update_cell pos f ws) = f (cell_at pos ws).
Proof. unfold cell_at at 1. by rewrite cells_update_eq. Qed.

Lemma cells_merge_cells r ws : cells (merge_cells r ws) = cells ws.
Proof. done. Qed.

Lemma cells_set_title t ws : cells (set_title t ws) = cells ws.
Proof. done. Qed.

Lemma cells_set_width letter w ws : cells (set_width letter w ws) = cells ws.
Proof. done. Qed.

Lemma get_column_letter_ok col_idx :
  1 ≤ col_idx → (N.of_nat col_idx ≤ 18278)%N →
  ∃ letter, get_column_letter col_idx = Ok letter.
Proof.
  intros H1 H2. unfold get_column_letter.
  rewrite (proj2 (Nat.leb_le _ _) H1), (proj2 (N.leb_le _ _) H2). simpl. eauto.
Qed.
End Sheet.

Section AppRenderer.
Import openpyxl App.

Lemma header_cells_other years : ∀ col_idx ws pos,
  pos.1 ≠ 5 → cells (header_cells col_idx years ws) !! pos = cells ws !! pos.
Proof.
  induction years as [|year rest IH]; intros col_idx ws pos Hpos; simpl; [done|].
  rewrite IH by done.
  rewrite !cells_update_ne; [done|..]; intros <-; done.
Qed.

Lemma year_cells_other data key row years : ∀ col_idx ws pos,
  pos.1 ≠ row ∨ pos.2 < col_idx →
  cells (year_cells data key row col_idx years ws) !! pos = cells ws !! pos.
Proof.
  induction years as [|year rest IH]; intros col_idx ws pos Hpos; simpl; [done|].
  rewrite IH by (simpl; lia).
  apply cells_update_ne. intros <-. simpl in *. lia.
Qed.

Lemma year_cells_at data key row years : ∀ col_idx ws j year,
  years !! j = Some year →
  cells (year_cells data key row col_idx years ws) !! (row, col_idx + j) =
  Some (year_cell data key year (cell_at (row, col_idx + j) ws)).
Proof.
  induction years as [|y rest IH]; intros col_idx ws [|j] year Hj; simpl in *;
    try done.
  - injection Hj as ->. rewrite Nat.add_0_r.
    rewrite year_cells_other by (simpl; lia). apply cells_update_eq.
  - replace (col_idx + S j) with (S col_idx + j) by lia.
    rewrite (IH _ _ _ _ Hj). rewrite cell_at_update_ne; [done|].
    intros [=]. lia.
Qed.

Lemma item_rows_spec data years items : ∀ row ws,
  ∃ ws', item_rows data years items row ws = (row + length items, ws')
    ∧ (∀ pos, pos.1 < row ∨ row + length items ≤ pos.1 →
         cells ws' !! pos = cells ws !! pos)
    ∧ (∀ i key label, items !! i = Some (key, label) →
         cells ws' !! (row + i, 1) =
           Some (set_border thin_border (set_font (bold_font None)
                   (set_value (Text label) (cell_at (row + i, 1) ws))))
         ∧ ∀ j year, years !! j = Some year →
             cells ws' !! (row + i, 2 + j) =
             Some (year_cell data key year (cell_at (row + i, 2 + j) ws))).
Proof.
  induction items as [|[k l] rest IH]; intros row ws; simpl.
  - exists ws. rewrite Nat.add_0_r. split_and!; [done..|]. intros ??? [=].
  - match goal with |- context [item_rows _ _ rest (row + 1) ?w] =>
      destruct (IH (row + 1) w) as (ws' & -> & Hout & Hin) end.
    exists ws'. split_and!.
    + f_equal. lia.
    + intros pos Hpos. rewrite Hout by lia.
      rewrite year_cells_other by lia.
      rewrite !cells_update_ne; [done|..]; intros <-; simpl in *; lia.
    + intros [|i] key label Hi; simpl in Hi.
      * injection Hi as -> ->. rewrite Nat.add_0_r. split.
        -- rewrite Hout by (simpl; lia).
           rewrite year_cells_other by (simpl; lia).
           rewrite cells_update_eq, !cell_at_update_eq. done.
        -- intros j year Hj. rewrite Hout by (simpl; lia).
           match goal with |- cells (year_cells _ _ _ _ _ ?w) !! _ = _ =>
             pose proof (year_cells_at data key row years 2 w j year Hj) as E end.
           simpl in E. rewrite E.
           rewrite !cell_at_update_ne; [done|..]; intros [=]; lia.
      * destruct (Hin i key label Hi) as [Hlabel Hyears].
        replace (row + S i) with (row + 1 + i) by lia. split.
        -- rewrite Hlabel. unfold cell_at.
           rewrite year_cells_other by (simpl; lia).
           rewrite !cells_update_ne; [done|..]; intros [=]; lia.
        -- intros j year Hj. pose proof (Hyears j year Hj) as E. simpl in E.
           rewrite E. unfold cell_at.
           rewrite year_cells_other by (simpl; lia).
           rewrite !cells_update_ne; [done|..]; intros [=]; lia.
Qed.

Lemma note_rows_other notes : ∀ row ws pos,
  pos.1 ≤ row → cells (note_rows notes row ws) !! pos = cells ws !! pos.
Proof.
  induction notes as [|note rest IH]; intros row ws pos Hpos; simpl; [done|].
  rewrite IH by lia. simpl.
  apply cells_update_ne. intros <-. simpl in *. lia.
Qed.

Lemma year_widths_spec n : ∀ col_idx ws,
  1 ≤ col_idx → (N.of_nat (col_idx + n) ≤ 18279)%N →
  ∃ ws', year_widths col_idx n ws = Ok ws' ∧ cells ws' = cells ws.
Proof.
  induction n as [|n IH]; intros col_idx ws H1 H2; simpl; [by eauto|].
  destruct (get_column_letter_ok col_idx) as [letter ->]; [lia..|]. simpl.
  destruct (IH (S col_idx) (set_width letter 18 ws)) as (ws' & -> & Hc); [lia..|].
  by exists ws'.
Qed.
End AppRenderer.

Section AppRendererTop.
Import openpyxl App.

Lemma year_cell_new data key year :
  year_cell data key year new_cell =
  match lookup2 data key year with
  | Some v => number_cell v
  | None => missing_cell
  end.
Proof.
  unfold year_cell, lookup2. destruct (data !! key) as [item|]; [|done].
  by destruct (item !! year).
Qed.


Lemma sheet_before_rows_blank r pos :
  6 ≤ pos.1 → cell_at pos (sheet_before_rows r) = new_cell.
Proof.
  intros Hpos. unfold cell_at, sheet_before_rows.
  rewrite header_cells_other by lia.
  repeat first [ rewrite cells_merge_cells | rewrite cells_set_title
               | rewrite cells_update_ne by (intros <-; simpl in *; lia) ].
  done.
Qed.

Lemma create_excel_workbook_cells (r : FinancialRecord) :
  (N.of_nat (length (default [] (fiscal_years r))) ≤ 18277)%N →
  ∃ wb ws',
    create_excel_workbook r = Ok wb
    ∧ item_rows (default ∅ (financial_data r)) (default [] (fiscal_years r))
        financial_items_list 6 (sheet_before_rows r) = (17, ws')
    ∧ ∀ pos, pos.1 ≤ 18 → cells (active wb) !! pos = cells ws' !! pos.
Proof.
  intros Hlen. unfold create_excel_workbook.
  fold (sheet_before_rows r).
  destruct (item_rows_spec (default ∅ (financial_data r))
              (default [] (fiscal_years r)) financial_items_list 6
              (sheet_before_rows r)) as (ws' & Hrows & _).
  rewrite Hrows. simpl length. cbn beta iota.
  match goal with |- context [year_widths 2 ?n ?w] =>
    destruct (year_widths_spec n 2 w) as (wsf & Hw & Hcells) end; [lia..|].
  rewrite Hw. simpl.
  exists {| active := wsf |}, ws'. split_and!; [done..|].
  intros pos Hpos. simpl. rewrite Hcells. simpl.
  rewrite ?cells_set_width. rewrite note_rows_other by (simpl; lia).
  rewrite !cells_update_ne by (intros <-; simpl in *; lia). done.
Qed.
End AppRendererTop.




Section Agreement.
Import openpyxl.

Lemma create_excel_workbook_same (r : FinancialRecord) :
  App.create_excel_workbook r = Api.create_excel_workbook r.
Proof. reflexivity. Qed.

Lemma year_cells_ext data data' key row years : ∀ col_idx ws,
  data !! key = data' !! key →
  App.year_cells data key row col_idx years ws =
  App.year_cells data' key row col_idx years ws.
Proof.
  induction years as [|year rest IH]; intros col_idx ws Hkey; simpl; [done|].
  rewrite IH by done. unfold App.year_cell. by rewrite Hkey.
Qed.

Lemma item_rows_ext data data' years items : ∀ row ws,
  (∀ key, key ∈ items.*1 → data !! key = data' !! key) →
  App.item_rows data years items row ws = App.item_rows data' years items row ws.
Proof.
  induction items as [|[key label] rest IH]; intros row ws Hkeys; simpl; [done|].
  rewrite (year_cells_ext data data') by (apply Hkeys; left).
  apply IH. intros k Hk. apply Hkeys. by right.
Qed.

Lemma lookup_recognized (fd : gmap string (gmap string Q)) key :
  filter (λ kv, kv.1 ∈ App.financial_items_list.*1) fd !! key =
  if decide (key ∈ App.financial_items_list.*1) then fd !! key else None.
Proof.
  destruct (decide _) as [Hin|Hnot].
  - apply option_eq. intros d. rewrite map_lookup_filter_Some. simpl.
    split; [by intros [? _]|done].
  - apply map_lookup_filter_None. right. intros d _. done.
Qed.

Lemma create_excel_workbook_drop (r : FinancialRecord) :
  App.create_excel_workbook r = App.create_excel_workbook (drop_unrecognized r).
Proof.
  unfold App.create_excel_workbook.
  change (company_name (drop_unrecognized r)) with (company_name r).
  change (currency (drop_unrecognized r)) with (currency r).
  change (units (drop_unrecognized r)) with (units r).
  change (fiscal_years (drop_unrecognized r)) with (fiscal_years r).
  change (notes (drop_unrecognized r)) with (notes r).
  change (financial_data (drop_unrecognized r))
    with (filter (λ kv, kv.1 ∈ App.financial_items_list.*1) <$> financial_data r).
  destruct (financial_data r) as [fd|]; [|done].
  change (default ∅ (Some fd)) with fd.
  change (default ∅ (filter (λ kv, kv.1 ∈ App.financial_items_list.*1) <$> Some fd))
    with (filter (λ kv, kv.1 ∈ App.financial_items_list.*1) fd).
  rewrite (item_rows_ext fd (filter (λ kv, kv.1 ∈ App.financial_items_list.*1) fd));
    [done|].
  intros key Hkey. rewrite lookup_recognized. by rewrite decide_True.
Qed.
End Agreement.




(** C9. The renderer of [src/app.py] and the one of
    [src/api/extract.py] give the same result on every record, and use the
    same list of items and labels. *)
Theorem renderers_agree (r : FinancialRecord) :
  App.create_excel_workbook r = Api.create_excel_workbook r
  ∧ App.financial_items_list = Api.financial_items_list.
Proof. split; reflexivity. Qed.



Lemma str_take_length n : ∀ s, String.length (str_take n s) = n `min` String.length s.
Proof.
  induction n as [|n IH]; intros [|c s]; simpl; try done. by rewrite IH.
Qed.

Lemma str_take_prefix n : ∀ s, ∃ rest, s = str_take n s +:+ rest.
Proof.
  induction n as [|n IH]; intros [|c s]; simpl; try by eexists.
  destruct (IH s) as [rest Hrest]. exists rest.
  change (String c (str_take n s) +:+ rest) with (String c (str_take n s +:+ rest)).
  by rewrite <- Hrest.
Qed.

Lemma str_take_idemp n : ∀ s, str_take n (str_take n s) = str_take n s.
Proof.
  induction n as [|n IH]; intros [|c s]; simpl; try done. by rewrite IH.
Qed.

Lemma messages_differ {J} e e' :
  (None : option J, Some ("Failed to parse financial data: " +:+ e)) ≠
  (None, Some ("Claude API error: " +:+ e')).
Proof. cbv [String.append]. discriminate. Qed.



Lemma fiscal_years_length text : length (fiscal_years_of text) ≤ 3.
Proof. unfold fiscal_years_of. rewrite length_take. lia. Qed.

Lemma extract_passes_checks (req : Upload) document_text error :
  has_file req = true →
  filename req ≠ "" →
  allowed_file (filename req) = true →
  text_result req = Ok (document_text, error) →
  truthy error = false →
  extract req =
  if negb (truthy document_text)
     || (String.length (strip (default "" document_text)) <? 100)
  then JsonError 400 "Document appears to be empty or unreadable"
  else
    match extract_body (default "" document_text) with
    | Ok record =>
        match create_excel_workbook record with
        | Raise e => Unhandled e
        | Ok workbook =>
            SendFile workbook
              ("financial_extract_" +:+
               replace_char " " "_" (default "unknown" (company_name record)) +:+
               ".xlsx")
        end
    | Raise e => JsonError 400 ("Error extracting financial data: " +:+ exc_msg e)
    end.
Proof.
  intros Hfile Hname Hallowed Htext Herror. unfold extract.
  rewrite Hfile, Hallowed, Htext, Herror. simpl.
  rewrite bool_decide_eq_false_2 by done.
  destruct (_ || _); [done|].
  unfold extract_financial_data_with_patterns.
  by destruct (extract_body (default "" document_text)).
Qed.



(** * Further properties of the code *)

Lemma str_app_nil_r (s : string) : s +:+ "" = s.
Proof.
  induction s as [|c s IH]; [done|].
  change (String c (s +:+ "") = String c s). by rewrite IH.
Qed.

Lemma read_pages_all texts : ∀ text,
  Files.read_pages (Ok <$> texts) text = Ok (text +:+ str_concat (default "" <$> texts)).
Proof.
  induction texts as [|t texts IH]; intros text; simpl.
  - by rewrite str_app_nil_r.
  - rewrite IH. by rewrite str_app_assoc.
Qed.

Lemma read_pages_raise before e after : ∀ text,
  Files.read_pages ((Ok <$> before) ++ Raise e :: after) text = Raise e.
Proof.
  induction before as [|t before IH]; intros text; simpl; [done|]. apply IH.
Qed.

(** X1. *)
Theorem pdf_text_is_the_pages_in_order (fs : Files.FileSystem) (file_path : string) :
  (∀ texts, Files.pdf_pages fs file_path = Ok (Ok <$> texts) →
     Files.extract_text_from_pdf fs file_path =
     (Some (str_concat (default "" <$> texts)), None))
  ∧ (∀ e, Files.pdf_pages fs file_path = Raise e →
       Files.extract_text_from_pdf fs file_path =
       (None, Some ("Error reading PDF: " +:+ exc_msg e)))
  ∧ (∀ before e after,
       Files.pdf_pages fs file_path = Ok ((Ok <$> before) ++ Raise e :: after) →
       Files.extract_text_from_pdf fs file_path =
       (None, Some ("Error reading PDF: " +:+ exc_msg e))).
Proof.
  unfold Files.extract_text_from_pdf. split_and!.
  - intros texts ->. simpl. by rewrite read_pages_all.
  - by intros e ->.
  - intros before e after ->. simpl. by rewrite read_pages_raise.
Qed.

Lemma extract_text_from_pdf_shape fs file_path :
  (∃ text, Files.extract_text_from_pdf fs file_path = (Some text, None))
  ∨ (∃ e, Files.extract_text_from_pdf fs file_path =
            (None, Some ("Error reading PDF: " +:+ e))).
Proof.
  unfold Files.extract_text_from_pdf.
  destruct (_ ≫= _) as [text|e]; [left|right]; by eexists.
Qed.

(** X2. *)
Theorem text_or_error_never_both (fs : Files.FileSystem) (file_path : string) :
  (after_last_dot file_path = None →
     Files.extract_text_from_file fs file_path =
     Raise (Exc IndexError "list index out of range"))
  ∧ (after_last_dot file_path ≠ None →
       ∃ r, Files.extract_text_from_file fs file_path = Ok r
         ∧ ((∃ text, r = (Some text, None))
            ∨ (∃ error, r = (None, Some error) ∧ truthy (Some error) = true))).
Proof.
  unfold Files.extract_text_from_file. split.
  - by intros ->.
  - destruct (after_last_dot file_path) as [ext|]; [intros _|done]. simpl.
    repeat case_bool_decide.
    + destruct (extract_text_from_pdf_shape fs file_path) as [[t Ht]|[e He]];
        eexists; (split; [done|]); [left|right]; rewrite ?Ht, ?He; by eexists.
    + destruct (Files.read_text fs file_path) as [t|e]; eexists; (split; [done|]);
        [left|right]; by eexists.
    + destruct (Files.docx_paragraphs fs file_path) as [ps|e]; eexists;
        (split; [done|]); [left|right]; by eexists.
    + eexists. split; [done|]. right. by eexists.
Qed.

(** X3. *)
Theorem readers_are_the_allowed_extensions (fs : Files.FileSystem) (file_path : string) :
  (allowed_file file_path = true →
     ∃ r, Files.extract_text_from_file fs file_path = Ok r
       ∧ r ≠ (None, Some "Unsupported file type"))
  ∧ (allowed_file file_path = false → after_last_dot file_path ≠ None →
       Files.extract_text_from_file fs file_path =
       Ok (None, Some "Unsupported file type")).
Proof.
  unfold allowed_file, Files.extract_text_from_file, ALLOWED_EXTENSIONS.
  destruct (after_last_dot file_path) as [ext|]; simpl; [|by split].
  split.
  - intros Hin%bool_decide_eq_true.
    repeat case_bool_decide.
    + destruct (extract_text_from_pdf_shape fs file_path) as [[t ->]|[e ->]];
        eexists; (split; [done|]); intros [=].
    + destruct (Files.read_text fs file_path) as [t|e]; eexists; (split; [done|]);
        intros [=].
    + destruct (Files.docx_paragraphs fs file_path) as [ps|e]; eexists;
        (split; [done|]); intros [=].
    + exfalso. repeat (apply elem_of_cons in Hin as [Hin|Hin]; [done|]).
      by apply elem_of_nil in Hin.
  - intros Hnot%bool_decide_eq_false _.
    rewrite !elem_of_cons, elem_of_nil in Hnot.
    repeat case_bool_decide; try done; exfalso; apply Hnot; auto.
Qed.

Lemma split_on_line p rest :
  str_forall not_newline p = true →
  split_on "010" (p +:+ String "010" rest) = p :: split_on "010" rest.
Proof.
  induction p as [|c p IH]; simpl; [done|].
  intros [Hc Hp]%andb_prop. unfold not_newline in Hc.
  apply negb_true_iff in Hc.
  change (String c p +:+ String "010" rest) with (String c (p +:+ String "010" rest)).
  simpl. rewrite Hc, (IH Hp). done.
Qed.

Lemma split_on_last p :
  str_forall not_newline p = true → split_on "010" p = [p].
Proof.
  induction p as [|c p IH]; simpl; [done|].
  intros [Hc Hp]%andb_prop. unfold not_newline in Hc.
  apply negb_true_iff in Hc. by rewrite Hc, (IH Hp).
Qed.

Lemma lines_of_join paragraphs :
  paragraphs ≠ [] →
  Forall (λ p, str_forall not_newline p = true) paragraphs →
  lines_of (Files.join (String "010" EmptyString) paragraphs) = paragraphs.
Proof.
  intros Hne Hall. unfold lines_of.
  induction Hall as [|p ps Hp Hps IH]; [done|].
  destruct ps as [|q ps]; simpl.
  - by apply split_on_last.
  - change (String "010" "" +:+ ?x) with (String "010" x).
    rewrite split_on_line by done. f_equal. by apply IH.
Qed.

(** X4. *)
Theorem docx_lines_are_the_paragraphs (fs : Files.FileSystem) (file_path ext : string)
    (paragraphs : list string) :
  after_last_dot file_path = Some ext →
  lower ext = "docx" →
  Files.docx_paragraphs fs file_path = Ok paragraphs →
  paragraphs ≠ [] →
  Forall (λ p, str_forall not_newline p = true) paragraphs →
  ∃ text, Files.extract_text_from_file fs file_path = Ok (Some text, None)
    ∧ lines_of text = paragraphs.
Proof.
  intros Hext Hlower Hdocx Hne Hall. unfold Files.extract_text_from_file.
  rewrite Hext, Hlower, Hdocx. simpl.
  eexists. split; [done|]. by apply lines_of_join.
Qed.

Lemma after_last_dot_none s :
  str_forall (λ c, negb (ascii_eqb c ".")) s = true → after_last_dot s = None.
Proof.
  induction s as [|c s IH]; simpl; [done|].
  intros [Hc Hs]%andb_prop. apply negb_true_iff in Hc. by rewrite (IH Hs), Hc.
Qed.

Lemma after_last_dot_ext base ext :
  str_forall (λ c, negb (ascii_eqb c ".")) ext = true →
  after_last_dot (base +:+ String "." ext) = Some ext.
Proof.
  intros Hext. induction base as [|c base IH].
  - change (EmptyString +:+ ?x) with x. simpl.
    by rewrite (after_last_dot_none _ Hext).
  - change (String c base +:+ ?x) with (String c (base +:+ x)). simpl.
    by rewrite IH.
Qed.

(** X5. *)
Theorem allowed_file_reads_the_last_extension (filename base ext : string) :
  (str_forall (λ c, negb (ascii_eqb c ".")) filename = true →
     allowed_file filename = false)
  ∧ (str_forall (λ c, negb (ascii_eqb c ".")) ext = true →
       allowed_file (base +:+ String "." ext) = true ↔
       lower ext = "pdf" ∨ lower ext = "txt" ∨ lower ext = "docx").
Proof.
  unfold allowed_file, ALLOWED_EXTENSIONS. split.
  - intros H. by rewrite (after_last_dot_none _ H).
  - intros H. rewrite (after_last_dot_ext _ _ H), bool_decide_eq_true.
    rewrite !elem_of_cons, elem_of_nil. tauto.
Qed.

Lemma heuristic_workbook text :
  ∃ r wb, extract_financial_data_with_patterns text = (Some r, None)
    ∧ create_excel_workbook r = Ok wb.
Proof.
  destruct (extract_ok text) as (fd & _ & r & Hr & Hyears & _).
  destruct (create_excel_workbook_cells r) as (wb & _ & Hwb & _).
  { rewrite Hyears. simpl. pose proof (fiscal_years_length text). lia. }
  by exists r, wb.
Qed.

(** X6. *)
Theorem responses_of_the_endpoint (req : Upload) :
  match extract req with
  | JsonError status _ => status = 400
  | SendFile _ _ =>
      has_file req = true ∧ allowed_file (filename req) = true
      ∧ ∃ text error, text_result req = Ok (Some text, error)
          ∧ truthy error = false
          ∧ 100 ≤ String.length (strip text)
  | Unhandled e => text_result req = Raise e
  end.
Proof.
  unfold extract.
  destruct (has_file req); simpl; [|done].
  case_bool_decide; [done|].
  destruct (allowed_file (filename req)); simpl; [|done].
  destruct (text_result req) as [[document_text error]|e]; [|done].
  destruct (truthy error) eqn:Herror; [done|].
  destruct (truthy document_text) eqn:Htext; simpl; [|done].
  destruct (_ <? 100) eqn:Hlen; [done|].
  destruct (heuristic_workbook (default "" document_text)) as (r & wb & -> & ->).
  simpl. split_and!; [done..|].
  destruct document_text as [text|]; [|done].
  exists text, error. split_and!; [done..|]. by apply Nat.ltb_ge in Hlen.
Qed.

Lemma replace_blank_none s :
  str_forall not_blank (replace_char " " "_" s) = true.
Proof.
  induction s as [|c s IH]; simpl; [done|].
  unfold ascii_eqb at 1. case_bool_decide as Hc.
  - change ("_" +:+ ?x) with (String "_" x). simpl. by rewrite IH.
  - simpl. rewrite IH, andb_true_r. unfold not_blank, ascii_eqb.
    by rewrite bool_decide_eq_false_2.
Qed.

(** X7. *)
Theorem download_name_has_no_space (req : Upload) (workbook : openpyxl.Workbook)
    (download_name : string) :
  extract req = SendFile workbook download_name →
  str_forall not_blank download_name = true
  ∧ ∃ stem, download_name = "financial_extract_" +:+ stem +:+ ".xlsx".
Proof.
  unfold extract.
  destruct (has_file req); simpl; [|done].
  case_bool_decide; [done|].
  destruct (allowed_file (filename req)); simpl; [|done].
  destruct (text_result req) as [[document_text error]|e]; [|done].
  destruct (truthy error); [done|].
  destruct (_ || _); [done|].
  destruct (extract_financial_data_with_patterns _) as [[r|] error'];
    destruct (truthy error'); try done.
  destruct (create_excel_workbook r); [|done].
  intros [= _ <-]. split; [|by eexists].
  rewrite !str_forall_app, replace_blank_none. done.
Qed.

Lemma lstrip_blank pad : str_forall is_space pad = true → lstrip pad = "".
Proof.
  induction pad as [|c pad IH]; simpl; [done|].
  intros [-> Hpad]%andb_prop. by apply IH.
Qed.

Lemma rstrip_blank pad : str_forall is_space pad = true → rstrip pad = "".
Proof.
  induction pad as [|c pad IH]; simpl; [done|].
  intros [-> Hpad]%andb_prop. by rewrite IH.
Qed.

Lemma lstrip_pad pad s : str_forall is_space pad = true → lstrip (pad +:+ s) = lstrip s.
Proof.
  induction pad as [|c pad IH]; [done|]. simpl.
  intros [Hc Hpad]%andb_prop.
  change (String c pad +:+ s) with (String c (pad +:+ s)). simpl.
  rewrite Hc. by apply IH.
Qed.

Lemma rstrip_pad s pad : str_forall is_space pad = true → rstrip (s +:+ pad) = rstrip s.
Proof.
  intros Hpad. induction s as [|c s IH].
  - change (EmptyString +:+ pad) with pad. by rewrite (rstrip_blank _ Hpad).
  - change (String c s +:+ pad) with (String c (s +:+ pad)). simpl. by rewrite IH.
Qed.

Lemma strip_pad_r s pad : str_forall is_space pad = true → strip (s +:+ pad) = strip s.
Proof.
  intros Hpad. unfold strip. induction s as [|c s IH].
  - change (EmptyString +:+ pad) with pad. by rewrite (lstrip_blank _ Hpad).
  - change (String c s +:+ pad) with (String c (s +:+ pad)). simpl.
    destruct (is_space c); [done|].
    change (String c (s +:+ pad)) with (String c s +:+ pad). by apply rstrip_pad.
Qed.

Lemma strip_pad pad1 s pad2 :
  str_forall is_space pad1 = true → str_forall is_space pad2 = true →
  strip (pad1 +:+ s +:+ pad2) = strip s.
Proof.
  intros H1 H2. unfold strip at 1. rewrite lstrip_pad by done.
  by apply strip_pad_r.
Qed.

(** X8. *)
Theorem padding_does_not_pass_the_length_check (req : Upload)
    (pad1 text pad2 : string) (error : option string) :
  has_file req = true →
  filename req ≠ "" →
  allowed_file (filename req) = true →
  text_result req = Ok (Some (pad1 +:+ text +:+ pad2), error) →
  truthy error = false →
  str_forall is_space pad1 = true →
  str_forall is_space pad2 = true →
  String.length (strip text) < 100 →
  extract req = JsonError 400 "Document appears to be empty or unreadable".
Proof.
  intros Hfile Hname Hallowed Htext Herror H1 H2 Hshort.
  rewrite (extract_passes_checks req _ error Hfile Hname Hallowed Htext Herror).
  simpl default. rewrite strip_pad by done.
  apply Nat.ltb_lt in Hshort as ->. by rewrite orb_true_r.
Qed.

Lemma pdf_text_is_the_pages_in_order_witness :
  Files.pdf_pages sample_files "report.pdf" =
    Ok (Ok <$> [Some "Revenue "; None; Some "2024"])
  ∧ Files.extract_text_from_pdf sample_files "report.pdf" = (Some "Revenue 2024", None).
Proof.
  split; [reflexivity|].
  exact (proj1 (pdf_text_is_the_pages_in_order sample_files "report.pdf")
           [Some "Revenue "; None; Some "2024"] eq_refl).
Defined.

Lemma text_or_error_never_both_witness :
  after_last_dot "report.txt" ≠ None
  ∧ ∃ r, Files.extract_text_from_file sample_files "report.txt" = Ok r
      ∧ ((∃ text, r = (Some text, None))
         ∨ (∃ error, r = (None, Some error) ∧ truthy (Some error) = true)).
Proof.
  split; [discriminate|].
  apply (proj2 (text_or_error_never_both sample_files "report.txt")). discriminate.
Defined.

Lemma readers_are_the_allowed_extensions_witness :
  allowed_file "report.pdf" = true
  ∧ ∃ r, Files.extract_text_from_file sample_files "report.pdf" = Ok r
      ∧ r ≠ (None, Some "Unsupported file type").
Proof.
  split; [reflexivity|].
  apply (proj1 (readers_are_the_allowed_extensions sample_files "report.pdf")).
  reflexivity.
Defined.

Lemma docx_lines_are_the_paragraphs_witness :
  ∃ text, Files.extract_text_from_file sample_files "report.DOCX" = Ok (Some text, None)
    ∧ lines_of text = ["Total revenue 200"; "Sales 7"].
Proof.
  apply (docx_lines_are_the_paragraphs sample_files "report.DOCX" "DOCX").
  - reflexivity.
  - reflexivity.
  - reflexivity.
  - discriminate.
  - repeat constructor.
Defined.

Lemma allowed_file_reads_the_last_extension_witness :
  str_forall (λ c, negb (ascii_eqb c ".")) "PDF" = true
  ∧ allowed_file ("annual.report" +:+ String "." "PDF") = true.
Proof.
  split; [reflexivity|].
  apply (proj2 (allowed_file_reads_the_last_extension "" "annual.report" "PDF")).
  - reflexivity.
  - left. reflexivity.
Defined.

Lemma download_name_has_no_space_witness :
  ∃ workbook,
    extract long_upload =
      SendFile workbook "financial_extract_ACME_INDUSTRIES_LIMITED.xlsx"
    ∧ str_forall not_blank "financial_extract_ACME_INDUSTRIES_LIMITED.xlsx" = true.
Proof.
  assert (∃ workbook, extract long_upload =
            SendFile workbook "financial_extract_ACME_INDUSTRIES_LIMITED.xlsx")
    as [workbook Hsend].
  { eexists. vm_compute. reflexivity. }
  exists workbook. split; [exact Hsend|].
  exact (proj1 (download_name_has_no_space long_upload workbook _ Hsend)).
Defined.

Lemma padding_does_not_pass_the_length_check_witness :
  String.length ("   " +:+ fifty_characters +:+ nl) = 54
  ∧ extract padded_upload = JsonError 400 "Document appears to be empty or unreadable".
Proof.
  split; [reflexivity|].
  apply (padding_does_not_pass_the_length_check padded_upload "   "
           fifty_characters nl None).
  - reflexivity.
  - discriminate.
  - reflexivity.
  - reflexivity.
  - reflexivity.
  - reflexivity.
  - reflexivity.
  - vm_compute. lia.
Defined.
